(** * debt_bot.py: the billing-period debt aggregation of the debts bot

    A shallow embedding of the aggregation methods of [DebtBot]
    (src/debt_bot.py): the period label computed from the clock, the monthly
    scan of the debts sheet, the daily scan, the organisation summary and
    the running total of the itemised view.

    Conventions.
    - A sheet is what [get_sheet_data] returns: a list of rows, a row a list
      of cells, a cell a string (row 0 is the header).
    - A Python [float] is a binary64 value: Rocq's primitive [float], with
      [PrimFloat.add] for [+] and [PrimFloat.ltb] for [<].  The [int] zero
      that starts every accumulator is written [0%float]: [0 + x] converts
      it before adding and [0 == 0.0] holds in Python.
    - Code that can raise returns a [result]; a subscript [row[i]] is
      [getitem], which raises [IndexError] out of range.
    - Python's built-in [float(s)] and the text an f-string gives a float are
      parameters of the development ([float_of_str], [str_of_float]);
      [ascii_float] is an executable reading of [float(s)] on ASCII text,
      used to run the functions on concrete sheets. *)

From Stdlib Require Import ZArith List String Ascii Bool Lia.
From Stdlib Require Import Floats.PrimFloat Floats.SpecFloat Floats.FloatOps.
From Stdlib Require Floats.FloatAxioms.
From Stdlib Require Import DecimalString.
Import ListNotations.

Open Scope string_scope.
Open Scope list_scope.

(** ** Exceptions and results *)

Inductive exn : Type :=
| IndexError
| ValueError
| NameError.

Inductive result (A : Type) : Type :=
| Ok (a : A)
| Raise (e : exn).

Arguments Ok {A} a.
Arguments Raise {A} e.

Definition bind {A B : Type} (m : result A) (k : A -> result B) : result B :=
  match m with
  | Ok a => k a
  | Raise e => Raise e
  end.

Notation "x <- m ;; k" := (bind m (fun x => k))
  (at level 61, m at next level, right associativity).

(** [try: body except ValueError: handler]. *)
Definition try_except_ValueError {A : Type} (body handler : result A) : result A :=
  match body with
  | Raise ValueError => handler
  | r => r
  end.

(** [for x in xs: st = body st x], stopping at the first exception. *)
Fixpoint for_each {S A : Type} (body : S -> A -> result S) (xs : list A) (st : S)
  : result S :=
  match xs with
  | [] => Ok st
  | x :: rest => st' <- body st x ;; for_each body rest st'
  end.

Definition is_ok {A : Type} (r : result A) : bool :=
  match r with
  | Ok _ => true
  | Raise _ => false
  end.

(** ** Rows and sheets *)

Definition row := list string.
Definition sheet := list row.

(** [row[i]]. *)
Definition getitem (r : row) (i : nat) : result string :=
  match nth_error r i with
  | Some cell => Ok cell
  | None => Raise IndexError
  end.

(** [row[i] if len(row) > i else ""]. *)
Definition cell_or_empty (r : row) (i : nat) : result string :=
  if (i <? List.length r)%nat then getitem r i else Ok "".

(** ** Dates: the part of [datetime] the bot uses *)

Module Datetime.

(** A [datetime] value; the time of day plays no part in the bot.  Years
    are unbounded here: the range check of [datetime] (years 1 to 9999) is
    not part of the model. *)
Record t : Type := mk { year : Z; month : Z; day : Z }.

Definition is_leap (y : Z) : bool :=
  (y mod 4 =? 0)%Z && (negb (y mod 100 =? 0)%Z || (y mod 400 =? 0)%Z).

Definition days_in_month (y m : Z) : Z :=
  if (m =? 2)%Z then (if is_leap y then 29 else 28)%Z
  else if ((m =? 4) || (m =? 6) || (m =? 9) || (m =? 11))%Z then 30%Z
  else 31%Z.

Definition valid (d : t) : Prop :=
  (1 <= month d <= 12)%Z /\ (1 <= day d <= days_in_month (year d) (month d))%Z.

(** [d.replace(day=n)]. *)
Definition replace_day (d : t) (n : Z) : t :=
  mk (year d) (month d) n.

(** [d - timedelta(days=1)]: the day before [d]. *)
Definition sub_one_day (d : t) : t :=
  if (1 <? day d)%Z then mk (year d) (month d) (day d - 1)
  else if (1 <? month d)%Z then
    mk (year d) (month d - 1) (days_in_month (year d) (month d - 1))
  else mk (year d - 1) 12 31.

(** [%B]: the month's full name (the C locale's; the bot sets no locale). *)
Definition month_name (m : Z) : string :=
  nth (Z.to_nat (m - 1))
    ["January"; "February"; "March"; "April"; "May"; "June"; "July";
     "August"; "September"; "October"; "November"; "December"] "".

(** [%Y]: the year in decimal. *)
Definition year_digits (y : Z) : string :=
  NilZero.string_of_int (Z.to_int y).

(** The label of month [m] of year [y], as ["%B %Y"] writes it. *)
Definition month_label (y m : Z) : string :=
  (month_name m ++ " " ++ year_digits y)%string.

(** [d.strftime("%B %Y")]. *)
Definition strftime_B_Y (d : t) : string :=
  month_label (year d) (month d).

End Datetime.

(** ** The current billing period (calculate_monthly_debt, lines 151-158)

    [today] is the value of [datetime.now()]. *)
Definition resolve_period (today : Datetime.t) : string :=
  if (10 <=? Datetime.day today)%Z then Datetime.strftime_B_Y today
  else
    let last_month := Datetime.sub_one_day (Datetime.replace_day today 1) in
    Datetime.strftime_B_Y last_month.

(** Truth value of an optional string argument ([None] and [""] are false). *)
Definition truthy (s : option string) : bool :=
  match s with
  | Some v => negb (v =? "")
  | None => false
  end.

(** The value of an optional string argument that is not [None]. *)
Definition value (s : option string) : string :=
  match s with
  | Some v => v
  | None => ""
  end.

(** The label the monthly scan runs with (lines 150-158): [month] itself
    unless it is missing or empty ([if not month:]), and then the current
    period's. *)
Definition period_label (today : Datetime.t) (month : option string) : string :=
  if negb (truthy month) then resolve_period today else value month.

(** ** The bot *)

(** [SHEET_NAMES]. *)
Definition SHEET_NAMES (key : string) : string :=
  if key =? "employees" then "employees"
  else if key =? "debts" then "debts"
  else if key =? "admins" then "admins"
  else "".

(** The bot and the spreadsheet behind it: [values name] is what the
    Sheets API returns for the sheet [name] ([[]] when the service is
    missing or the read fails).  The spreadsheet is taken not to change
    while one method runs. *)
Record DebtBot : Type := { values : string -> sheet }.

Definition get_sheet_data (self : DebtBot) (sheet_name : string) : sheet :=
  values self sheet_name.

(** The entries of [details] and of [daily_debts]. *)
Record detail : Type :=
  { detail_date : string; detail_items : string; detail_amount : float }.

Record daily_debt : Type :=
  { daily_employee : string; daily_items : string; daily_amount : float }.

Section Bot.

(** Python's [float(s)] on a cell: [None] where it raises [ValueError]. *)
Variable float_of_str : string -> option float.

(** The text an f-string gives a float. *)
Variable str_of_float : float -> string.

Definition py_float (s : string) : result float :=
  match float_of_str s with
  | Some x => Ok x
  | None => Raise ValueError
  end.

(** [get_all_employees]. *)
Definition get_all_employees (self : DebtBot) : result (list string) :=
  let employees_data := get_sheet_data self (SHEET_NAMES "employees") in
  if (List.length employees_data <? 2)%nat then Ok []
  else
    for_each
      (fun employees r =>
         if (1 <? List.length r)%nat
         then (name <- getitem r 1 ;; Ok (employees ++ [name]))
         else Ok employees)
      (tl employees_data) [].

(** One turn of the loop of [calculate_monthly_debt] (lines 168-182). *)
Definition monthly_row (employee_name month : string)
    (st : float * list detail) (r : row) : result (float * list detail) :=
  let '(total, details) := st in
  if (5 <=? List.length r)%nat then
    debt_employee <- cell_or_empty r 1 ;;
    debt_month <- cell_or_empty r 4 ;;
    if (debt_employee =? employee_name) && (debt_month =? month) then
      try_except_ValueError
        (amount <- (if (3 <? List.length r)%nat
                    then (cell <- getitem r 3 ;; py_float cell)
                    else Ok 0%float) ;;
         let total := (total + amount)%float in
         date <- cell_or_empty r 0 ;;
         items <- cell_or_empty r 2 ;;
         Ok (total,
             details ++ [ {| detail_date := date; detail_items := items;
                             detail_amount := amount |} ]))
        (Ok (total, details))
    else Ok (total, details)
  else Ok (total, details).

(** [calculate_monthly_debt] from line 160 on: the scan of the debts sheet
    for [employee_name] and the period label [month] in force. *)
Definition total_for_period (self : DebtBot) (employee_name month : string)
  : result (float * list detail) :=
  let debts_data := get_sheet_data self (SHEET_NAMES "debts") in
  if (List.length debts_data <? 2)%nat then Ok (0%float, [])
  else for_each (monthly_row employee_name month) (tl debts_data) (0%float, []).

(** [calculate_monthly_debt(employee_name, month)]. *)
Definition calculate_monthly_debt (self : DebtBot) (today : Datetime.t)
    (employee_name : string) (month : option string)
  : result (float * list detail) :=
  let month := period_label today month in
  total_for_period self employee_name month.

(** One turn of the loop of [get_daily_debts] (lines 194-210). *)
Definition daily_row (date : string) (employee_name : option string)
    (daily_debts : list daily_debt) (r : row) : result (list daily_debt) :=
  if (4 <=? List.length r)%nat then
    debt_date <- cell_or_empty r 0 ;;
    debt_employee <- cell_or_empty r 1 ;;
    if debt_date =? date then
      if truthy employee_name
         && negb (match employee_name with
                  | Some v => debt_employee =? v
                  | None => false
                  end)
      then Ok daily_debts
      else
        try_except_ValueError
          (amount <- (if (3 <? List.length r)%nat
                      then (cell <- getitem r 3 ;; py_float cell)
                      else Ok 0%float) ;;
           items <- cell_or_empty r 2 ;;
           Ok (daily_debts ++ [ {| daily_employee := debt_employee;
                                   daily_items := items;
                                   daily_amount := amount |} ]))
          (Ok daily_debts)
    else Ok daily_debts
  else Ok daily_debts.

(** [get_daily_debts(date, employee_name)]. *)
Definition get_daily_debts (self : DebtBot) (date : string)
    (employee_name : option string) : result (list daily_debt) :=
  let debts_data := get_sheet_data self (SHEET_NAMES "debts") in
  if (List.length debts_data <? 2)%nat then Ok []
  else for_each (daily_row date employee_name) (tl debts_data) [].

(** The line of the summary for one employee:
    [f"{employee}: {employee_total} ₽"]. *)
Definition summary_line (employee : string) (employee_total : float) : string :=
  (employee ++ ": " ++ str_of_float employee_total ++ " ₽")%string.

(** One turn of the loop of [get_all_debts_summary] (lines 221-224). *)
Definition summary_row (self : DebtBot) (today : Datetime.t) (month : option string)
    (st : float * list string) (employee : string) : result (float * list string) :=
  let '(total, summary) := st in
  res <- calculate_monthly_debt self today employee month ;;
  let employee_total := fst res in
  if (0 <? employee_total)%float then
    Ok ((total + employee_total)%float,
        summary ++ [summary_line employee employee_total])
  else Ok (total, summary).

(** [get_all_debts_summary(month)]. *)
Definition get_all_debts_summary (self : DebtBot) (today : Datetime.t)
    (month : option string) : result (float * list string) :=
  employees <- get_all_employees self ;;
  for_each (summary_row self today month) employees (0%float, []).

(** *** The itemised view (employee_button_handler, 'my_debt_details') *)

Definition nl : string := String (ascii_of_nat 10) "".

(** The text one entry adds to the message (lines 352-354). *)
Definition detail_lines (d : detail) (running_total : float) : string :=
  ("📅 " ++ detail_date d ++ nl ++
   "   🛒 " ++ detail_items d ++ nl ++
   "   💰 " ++ str_of_float (detail_amount d) ++ " ₽ (Накоплено: "
   ++ str_of_float running_total ++ " ₽)" ++ nl ++ nl)%string.

(** One turn of the loop over [details] (lines 350-354). *)
Definition running_total_row (st : float * string) (d : detail) : float * string :=
  let '(running_total, message) := st in
  let running_total := (running_total + detail_amount d)%float in
  (running_total, (message ++ detail_lines d running_total)%string).

(** Lines 347-356: the message built from [details], [total] and the
    label [month] shown in its first line, once the handler has reached
    them with [details] not empty ([employee_button_handler] below has
    the lines before). *)
Definition details_message (month : string) (total : float) (details : list detail)
  : string :=
  let message := ("📋 Детализация долга за " ++ month ++ ":" ++ nl ++ nl)%string in
  let running_total := 0%float in
  let '(running_total, message) :=
    fold_left running_total_row details (running_total, message) in
  (message ++ "✅ Итого: " ++ str_of_float total ++ " ₽")%string.

End Bot.

(** ** [float(s)] on ASCII text

    The grammar of the argument of [float] (surrounding white space
    stripped: space, tab, line feed, vertical tab, form feed, carriage
    return; an optional sign, then [inf], [infinity], [nan] in any case,
    or a decimal number with optional underscores between digits and an
    optional exponent) and the correctly rounded binary64 value.  Text
    with characters outside ASCII (other spaces and digits [float] accepts)
    is not covered: it is read as no number. *)

Module AsciiFloat.

Definition is_space (c : ascii) : bool :=
  let n := nat_of_ascii c in
  ((n =? 32) || ((9 <=? n) && (n <=? 13)))%nat.

Fixpoint lstrip (s : list ascii) : list ascii :=
  match s with
  | c :: rest => if is_space c then lstrip rest else s
  | [] => []
  end.

Definition strip (s : list ascii) : list ascii :=
  rev (lstrip (rev (lstrip s))).

Definition digit_of (c : ascii) : option Z :=
  let n := nat_of_ascii c in
  if ((48 <=? n) && (n <=? 57))%nat then Some (Z.of_nat (n - 48)) else None.

Definition lower (c : ascii) : ascii :=
  let n := nat_of_ascii c in
  if ((65 <=? n) && (n <=? 90))%nat then ascii_of_nat (n + 32) else c.

(** [(["_"] digit)*]: the digits that follow a first digit, and the rest. *)
Fixpoint more_digits (s : list ascii) : list Z * list ascii :=
  match s with
  | c :: rest =>
      match digit_of c with
      | Some d => let '(ds, r) := more_digits rest in (d :: ds, r)
      | None =>
          if (c =? "_")%char then
            match rest with
            | c2 :: rest2 =>
                match digit_of c2 with
                | Some d => let '(ds, r) := more_digits rest2 in (d :: ds, r)
                | None => ([], s)
                end
            | [] => ([], s)
            end
          else ([], s)
      end
  | [] => ([], [])
  end.

(** [digitpart ::= digit (["_"] digit)*]. *)
Definition digitpart (s : list ascii) : option (list Z * list ascii) :=
  match s with
  | c :: rest =>
      match digit_of c with
      | Some d => let '(ds, r) := more_digits rest in Some (d :: ds, r)
      | None => None
      end
  | [] => None
  end.

(** [sign ::= "+" | "-"], optional: whether it is ["-"], and the rest. *)
Definition sign (s : list ascii) : bool * list ascii :=
  match s with
  | c :: rest =>
      if (c =? "-")%char then (true, rest)
      else if (c =? "+")%char then (false, rest)
      else (false, s)
  | [] => (false, [])
  end.

(** [number ::= [digitpart] "." digitpart | digitpart ["."]]: the digits
    before and after the point, and the rest. *)
Definition number (s : list ascii) : option (list Z * list Z * list ascii) :=
  match digitpart s with
  | Some (ip, r) =>
      match r with
      | c :: r' =>
          if (c =? ".")%char then
            match digitpart r' with
            | Some (fp, r'') => Some (ip, fp, r'')
            | None => Some (ip, [], r')
            end
          else Some (ip, [], r)
      | [] => Some (ip, [], [])
      end
  | None =>
      match s with
      | c :: r' =>
          if (c =? ".")%char then
            match digitpart r' with
            | Some (fp, r'') => Some ([], fp, r'')
            | None => None
            end
          else None
      | [] => None
      end
  end.

Definition Z_of_digits (ds : list Z) : Z :=
  fold_left (fun acc d => (10 * acc + d)%Z) ds 0%Z.

(** [exponent ::= ("e" | "E") [sign] digitpart], optional. *)
Definition exponent (s : list ascii) : option (Z * list ascii) :=
  match s with
  | c :: r =>
      if (lower c =? "e")%char then
        let '(neg, r') := sign r in
        match digitpart r' with
        | Some (ds, r'') =>
            Some ((if neg then - Z_of_digits ds else Z_of_digits ds)%Z, r'')
        | None => None
        end
      else Some (0%Z, s)
  | [] => Some (0%Z, [])
  end.

(** The binary64 value nearest to [m * 10^e] for [0 < m], ties to even;
    beyond the range of binary64 by far, an infinity or a zero at once. *)
Definition round_decimal (neg : bool) (m e : Z) : spec_float :=
  if (400 <? Z.log2 m / 4 + e)%Z then S754_infinity neg
  else if (Z.log2 m / 3 + e <? -400)%Z then S754_zero neg
  else if (0 <=? e)%Z then
    binary_round prec emax neg (Z.to_pos (m * 10 ^ e)) 0
  else
    let d := (10 ^ (- e))%Z in
    let s := Z.max 0 (56 + Z.log2 d - Z.log2 m) in
    let '(q, r) := Z.div_eucl (m * 2 ^ s) d in
    let l := if (r =? 0)%Z then loc_Exact else loc_Inexact (Z.compare (2 * r) d) in
    binary_round_aux prec emax neg q (- s) l.

Definition same_text (s : list ascii) (word : string) : bool :=
  (string_of_list_ascii (map lower s) =? word)%string.

(** [float(s)]: [None] where it raises [ValueError]. *)
Definition parse (s : string) : option float :=
  let '(neg, body) := sign (strip (list_ascii_of_string s)) in
  if same_text body "inf" || same_text body "infinity" then
    Some (if neg then neg_infinity else infinity)
  else if same_text body "nan" then Some nan
  else
    match number body with
    | Some (ip, fp, r) =>
        match exponent r with
        | Some (x, []) =>
            let m := Z_of_digits (ip ++ fp) in
            let e := (x - Z.of_nat (List.length fp))%Z in
            Some (SF2Prim (if (m =? 0)%Z then S754_zero neg
                           else round_decimal neg m e))
        | _ => None
        end
    | None => None
    end.

End AsciiFloat.

Definition ascii_float : string -> option float := AsciiFloat.parse.

(** ** What the specification speaks of *)

(** The data rows of the debts sheet: all rows but the header
    ([debts_data[1:]]). *)
Definition debts_rows (self : DebtBot) : list row :=
  tl (get_sheet_data self (SHEET_NAMES "debts")).

(** The bot over the same spreadsheet with [debts_data] as its debts sheet. *)
Definition with_debts (self : DebtBot) (debts_data : sheet) : DebtBot :=
  {| values := fun name => if name =? "debts" then debts_data else values self name |}.

(** The bot after the row [r] is appended to the debts sheet. *)
Definition append_debt (self : DebtBot) (r : row) : DebtBot :=
  with_debts self (get_sheet_data self (SHEET_NAMES "debts") ++ [r]).

(** The fields of a debts row, an absent one read as empty. *)
Definition date_field (r : row) : string := nth 0 r "".
Definition employee_field (r : row) : string := nth 1 r "".
Definition items_field (r : row) : string := nth 2 r "".
Definition period_field (r : row) : string := nth 4 r "".

(** A row matches the filter of the monthly scan: it has the five columns,
    and its employee and period fields are the given strings. *)
Definition row_matches (employee_name month : string) (r : row) : bool :=
  (5 <=? List.length r)%nat
  && (employee_field r =? employee_name) && (period_field r =? month).

(** A row matches the filter of the daily scan: it has four columns, its
    date field is the given string and, when an employee is given (and not
    empty), its employee field is that name. *)
Definition daily_matches (date : string) (employee_name : option string) (r : row)
  : bool :=
  (4 <=? List.length r)%nat && (date_field r =? date)
  && (negb (truthy employee_name) || (employee_field r =? value employee_name)).

(** The sum of a list of amounts, added from the left starting at zero. *)
Definition sum_amounts (l : list float) : float :=
  fold_left PrimFloat.add l 0%float.

(** [sublist l1 l2]: [l1] is [l2] with some elements left out (possibly
    none), the order kept. *)
Inductive sublist {A : Type} : list A -> list A -> Prop :=
| sublist_nil : sublist [] []
| sublist_skip : forall x l1 l2, sublist l1 l2 -> sublist l1 (x :: l2)
| sublist_cons : forall x l1 l2, sublist l1 l2 -> sublist (x :: l1) (x :: l2).

Section Aggregates.

Variable float_of_str : string -> option float.

(** The parsed amount of a row: [None] when the amount field is absent or
    [float] rejects it. *)
Definition amount_of (r : row) : option float :=
  match nth_error r 3 with
  | Some cell => float_of_str cell
  | None => None
  end.

(** The entry of [details] a row gives, if its amount parses. *)
Definition detail_of (r : row) : list detail :=
  match amount_of r with
  | Some a => [ {| detail_date := date_field r; detail_items := items_field r;
                   detail_amount := a |} ]
  | None => []
  end.

(** The entry of [daily_debts] a row gives, if its amount parses. *)
Definition daily_of (r : row) : list daily_debt :=
  match amount_of r with
  | Some a => [ {| daily_employee := employee_field r; daily_items := items_field r;
                   daily_amount := a |} ]
  | None => []
  end.

(** The entries of the rows that match the monthly filter, in row order. *)
Definition matching_details (self : DebtBot) (employee_name month : string)
  : list detail :=
  flat_map detail_of (filter (row_matches employee_name month) (debts_rows self)).

(** The sum of their amounts. *)
Definition matching_total (self : DebtBot) (employee_name month : string) : float :=
  sum_amounts (map detail_amount (matching_details self employee_name month)).

(** The entries of the rows that match the daily filter, in row order. *)
Definition daily_entries (self : DebtBot) (date : string)
    (employee_name : option string) : list daily_debt :=
  flat_map daily_of (filter (daily_matches date employee_name) (debts_rows self)).

(** What one turn of the monthly loop does to [total] and [details]. *)
Definition monthly_step (employee_name month : string)
    (st : float * list detail) (r : row) : float * list detail :=
  if row_matches employee_name month r then
    (fold_left PrimFloat.add (map detail_amount (detail_of r)) (fst st),
     snd st ++ detail_of r)
  else st.

(** What one turn of the daily loop does to [daily_debts]. *)
Definition daily_step (date : string) (employee_name : option string)
    (daily_debts : list daily_debt) (r : row) : list daily_debt :=
  if daily_matches date employee_name r then daily_debts ++ daily_of r
  else daily_debts.

End Aggregates.

(** The month before month [m] of year [y], counting months from year 0:
    month [m] of year [y] is month number [12 * y + (m - 1)]. *)
Definition previous_month (y m : Z) : Z * Z :=
  let i := (12 * y + (m - 1) - 1)%Z in
  ((i / 12)%Z, (i mod 12 + 1)%Z).

(** The names [get_all_employees] lists: the second cell of every data row
    of the employees sheet that has one, in sheet order, repeats kept. *)
Definition employee_names (self : DebtBot) : list string :=
  map employee_field
    (filter (fun r => (1 <? List.length r)%nat)
       (tl (get_sheet_data self (SHEET_NAMES "employees")))).

(** A list of strings written one after the other. *)
Definition concat_strings (l : list string) : string :=
  fold_right String.append "" l.

Definition no_detail : detail :=
  {| detail_date := ""; detail_items := ""; detail_amount := 0 |}.

(** ** Sheets to run the functions on *)

(** A bot over an employees sheet and a debts sheet (no admins). *)
Definition bot_of (employees_data debts_data : sheet) : DebtBot :=
  {| values := fun name =>
       if name =? "debts" then debts_data
       else if name =? "employees" then employees_data
       else [] |}.

Definition debts_header : row := ["date"; "employee"; "items"; "amount"; "period"].
Definition employees_header : row := ["id"; "name"].

(** Two debts of Ann and one of Bob in January 2024. *)
Definition january_debts : sheet :=
  [ debts_header;
    ["15.01.2024"; "Ann"; "tea"; "10"; "January 2024"];
    ["16.01.2024"; "Bob"; "pie"; "5"; "January 2024"];
    ["17.01.2024"; "Ann"; "jam"; "20"; "January 2024"] ].

Definition january_bot : DebtBot :=
  bot_of [employees_header; ["1"; "Ann"]; ["2"; "Bob"]; ["3"; "Cy"]] january_debts.

(** Five debts of Ann, the third with an amount that is no number. *)
Definition malformed_debts : sheet :=
  [ debts_header;
    ["15.01.2024"; "Ann"; "tea"; "10"; "January 2024"];
    ["15.01.2024"; "Ann"; "pie"; "5.5"; "January 2024"];
    ["15.01.2024"; "Ann"; "jam"; "abc"; "January 2024"];
    ["15.01.2024"; "Ann"; "bun"; "20"; "January 2024"];
    ["15.01.2024"; "Ann"; "egg"; "1e1"; "January 2024"] ].

(** A refund written as a negative amount. *)
Definition refund_debts : sheet :=
  [ debts_header; ["17.01.2024"; "Ann"; "jam"; "-5"; "January 2024"] ].

(** The employees A, B, C of the specification with totals 50, 0 and 30. *)
Definition abc_bot : DebtBot :=
  bot_of
    [employees_header; ["1"; "A"]; ["2"; "B"]; ["3"; "C"]]
    [ debts_header;
      ["15.01.2024"; "A"; "tea"; "50"; "January 2024"];
      ["15.01.2024"; "B"; "tea"; "0"; "January 2024"];
      ["16.01.2024"; "C"; "pie"; "30"; "January 2024"] ].

Definition mid_january : Datetime.t := Datetime.mk 2024 1 15.

(** ** Roles and names (get_user_role, get_employee_name) *)

(** [str(n)] for an [int]. *)
Definition py_str_int (n : Z) : string :=
  NilZero.string_of_int (Z.to_int n).

(** The loop the two methods share,
    [for row in rows: if len(row) > 0 and str(row[0]) == id: return ...]:
    the first row whose first cell is [id], if there is one. *)
Fixpoint first_row_of (id : string) (rows : list row) : result (option row) :=
  match rows with
  | [] => Ok None
  | r :: rest =>
      hit <- (if (0 <? List.length r)%nat
              then (cell <- getitem r 0 ;; Ok (cell =? id))
              else Ok false) ;;
      if (hit : bool) then Ok (Some r) else first_row_of id rest
  end.

(** [get_user_role(user_id)]. *)
Definition get_user_role (self : DebtBot) (user_id : Z) : result string :=
  let admins_data := get_sheet_data self (SHEET_NAMES "admins") in
  found <- first_row_of (py_str_int user_id) (tl admins_data) ;;
  match found with
  | Some _ => Ok "admin"
  | None =>
      let employees_data := get_sheet_data self (SHEET_NAMES "employees") in
      found <- first_row_of (py_str_int user_id) (tl employees_data) ;;
      match found with
      | Some _ => Ok "employee"
      | None => Ok "unknown"
      end
  end.

(** [get_employee_name(user_id)]; [None] is Python's [None]. *)
Definition get_employee_name (self : DebtBot) (user_id : Z)
  : result (option string) :=
  let employees_data := get_sheet_data self (SHEET_NAMES "employees") in
  found <- first_row_of (py_str_int user_id) (tl employees_data) ;;
  match found with
  | Some r =>
      if (1 <? List.length r)%nat
      then (name <- getitem r 1 ;; Ok (Some name))
      else Ok (Some "Неизвестный")
  | None => Ok None
  end.

(** Some data row of a sheet has [id] as its first cell. *)
Definition has_id (id : string) (rows : list row) : bool :=
  existsb (fun r => match r with
                    | cell :: _ => cell =? id
                    | [] => false
                    end) rows.

(** The first data row of a sheet that has [id] as its first cell. *)
Definition row_of_id (id : string) (rows : list row) : option row :=
  find (fun r => match r with
                 | cell :: _ => cell =? id
                 | [] => false
                 end) rows.

(** The bot over the same spreadsheet with [employees_data] as its
    employees sheet. *)
Definition with_employees (self : DebtBot) (employees_data : sheet) : DebtBot :=
  {| values := fun name =>
       if name =? "employees" then employees_data else values self name |}.

(** ** Notifications and the admin's views (send_notifications,
    show_all_debts, handle_text)

    The handlers send their text through the chat transport; what is
    modelled is the text and the numbers in it. *)

Section Handlers.

(** Python's [int(s)] on a cell: [None] where it raises [ValueError]. *)
Variable int_of_str : string -> option Z.
Variable float_of_str : string -> option float.
Variable str_of_float : float -> string.

Definition py_int (s : string) : result Z :=
  match int_of_str s with
  | Some n => Ok n
  | None => Raise ValueError
  end.

(** [try: body except (ValueError, IndexError): handler]. *)
Definition try_except_ValueError_IndexError {A : Type} (body handler : result A)
  : result A :=
  match body with
  | Raise ValueError => handler
  | Raise IndexError => handler
  | r => r
  end.

(** One turn of the loop of [send_notifications] (lines 385-399) on the
    counters [notified] and [errors]. *)
Definition notification_row (self : DebtBot) (today : Datetime.t)
    (st : Z * Z) (r : row) : result (Z * Z) :=
  let '(notified, errors) := st in
  if (2 <=? List.length r)%nat then
    try_except_ValueError_IndexError
      (cell <- getitem r 0 ;;
       employee_id <- py_int cell ;;
       employee_name <- getitem r 1 ;;
       res <- calculate_monthly_debt float_of_str self today employee_name None ;;
       let total := fst res in
       if (0 <? total)%float then Ok ((notified + 1)%Z, errors)
       else Ok (notified, errors))
      (Ok (notified, (errors + 1)%Z))
  else Ok (notified, errors).

(** [send_notifications]: the three numbers of its closing message,
    notified, errors and skipped. *)
Definition send_notifications (self : DebtBot) (today : Datetime.t)
  : result (Z * Z * Z) :=
  let employees_data := get_sheet_data self (SHEET_NAMES "employees") in
  st <- for_each (notification_row self today) (tl employees_data) (0%Z, 0%Z) ;;
  let '(notified, errors) := st in
  Ok (notified, errors,
      (Z.of_nat (List.length employees_data) - 1 - notified - errors)%Z).

(** [show_all_debts]: the text of its message.  [total] is the [int] 0,
    shown as [0], exactly when no employee was added, that is when
    [summary] is empty; otherwise it is a float. *)
Definition show_all_debts (self : DebtBot) (today : Datetime.t) : result string :=
  res <- get_all_debts_summary float_of_str str_of_float self today None ;;
  let '(total, summary) := res in
  let month := Datetime.strftime_B_Y today in
  let message := ("👥 Общие долги за " ++ month ++ ":" ++ nl)%string in
  let message :=
    (message ++ "💵 Общая сумма: "
     ++ (match summary with [] => "0" | _ => str_of_float total end)
     ++ " ₽" ++ nl ++ nl)%string in
  match summary with
  | [] => Ok (message ++ "📭 Долгов нет")%string
  | _ =>
      let message := (message ++ "📋 По сотрудникам:" ++ nl)%string in
      Ok (fold_left (fun message item => (message ++ "• " ++ item ++ nl)%string)
            summary message)
  end.

End Handlers.

(** ** The employee's buttons (employee_button_handler) *)

(** What the handlers read of a Telegram update. *)
Record Update : Type := { effective_user_id : Z }.

(** Reading a name that stands for an update in a function body: [scope]
    holds the names bound there, the parameters of the function and the
    globals of the module; a name that is not bound raises [NameError]. *)
Definition load_name (scope : list (string * Update)) (name : string)
  : result Update :=
  match find (fun binding => fst binding =? name) scope with
  | Some binding => Ok (snd binding)
  | None => Raise NameError
  end.

(** The updates in scope in the body of
    [employee_button_handler(query, context)]: none; its parameters are a
    callback query and a context, and the module defines no global
    [update]. *)
Definition employee_button_handler_scope : list (string * Update) := [].

(** [details[-5:]]. *)
Definition last_five {A : Type} (l : list A) : list A :=
  skipn (List.length l - 5) l.

Section EmployeeButtons.

Variable float_of_str : string -> option float.
Variable str_of_float : float -> string.

(** The lines of the last operations (lines 325-326):
    [for i, detail in enumerate(details[-5:], 1)]. *)
Definition last_operations (details : list detail) : string :=
  fold_left
    (fun message (numbered : nat * detail) =>
       let '(i, d) := numbered in
       (message ++ py_str_int (Z.of_nat i) ++ ". " ++ detail_date d ++ ": "
        ++ detail_items d ++ " - " ++ str_of_float (detail_amount d) ++ " ₽"
        ++ nl)%string)
    (combine (seq 1 (List.length (last_five details))) (last_five details))
    "".

(** The body of [employee_button_handler] (lines 311-357), run where
    [scope] binds the updates, for the button [query_data]: the text it puts
    in the message, if any, and the entries it writes to
    [context.user_data].  [total] is the [int] 0, shown as [0], when
    [details] is empty. *)
Definition employee_button_handler_body (scope : list (string * Update))
    (self : DebtBot) (today : Datetime.t) (query_data : string)
  : result (option string * list (string * string)) :=
  update <- load_name scope "update" ;;
  employee_name <- get_employee_name self (effective_user_id update) ;;
  if negb (truthy employee_name)
  then Ok (Some "❌ Ошибка: ваше имя не найдено в базе", [])
  else
    let employee_name := value employee_name in
    if query_data =? "my_debt_total" then
      res <- calculate_monthly_debt float_of_str self today employee_name None ;;
      let '(total, details) := res in
      let month := Datetime.strftime_B_Y today in
      let message := ("📊 Ваш долг за " ++ month ++ ":" ++ nl)%string in
      let message :=
        (message ++ "💵 Общая сумма: "
         ++ (match details with [] => "0" | _ => str_of_float total end)
         ++ " ₽" ++ nl ++ nl)%string in
      match details with
      | [] => Ok (Some message, [])
      | _ =>
          Ok (Some (message ++ "📋 Последние операции:" ++ nl
                    ++ last_operations details)%string, [])
      end
    else if query_data =? "my_debt_daily" then
      Ok (Some "Введите дату в формате ДД.ММ.ГГГГ (например: 15.12.2024):",
          [("action", "my_debt_daily"); ("employee_name", employee_name)])
    else if query_data =? "my_debt_details" then
      res <- calculate_monthly_debt float_of_str self today employee_name None ;;
      let '(total, details) := res in
      let month := Datetime.strftime_B_Y today in
      match details with
      | [] => Ok (Some ("📭 У вас нет долгов за " ++ month)%string, [])
      | _ => Ok (Some (details_message str_of_float month total details), [])
      end
    else Ok (None, []).

(** [employee_button_handler(query, context)]. *)
Definition employee_button_handler (self : DebtBot) (today : Datetime.t)
    (query_data : string) : result (option string * list (string * string)) :=
  employee_button_handler_body employee_button_handler_scope self today query_data.

End EmployeeButtons.

(** Ann, registered with id 1, with debts of 10, 5 and 20 in January 2024. *)
Definition ann_bot : DebtBot :=
  bot_of
    [["id"; "name"]; ["1"; "Ann"]]
    [ ["date"; "employee"; "items"; "amount"; "period"];
      ["15.01.2024"; "Ann"; "tea"; "10"; "January 2024"];
      ["16.01.2024"; "Ann"; "pie"; "5"; "January 2024"];
      ["17.01.2024"; "Ann"; "jam"; "20"; "January 2024"] ].

(** * Properties *)

(** ** The loops never raise *)

Lemma cell_or_empty_nth (r : row) (i : nat) :
  cell_or_empty r i = Ok (nth i r "").
Proof.
  unfold cell_or_empty, getitem.
  destruct (i <? List.length r)%nat eqn:Hlt.
  - apply Nat.ltb_lt in Hlt.
    destruct (nth_error r i) as [cell|] eqn:Hnth.
    + now rewrite (nth_error_nth r i "" Hnth).
    + apply nth_error_None in Hnth. lia.
  - apply Nat.ltb_ge in Hlt. now rewrite nth_overflow.
Qed.

Lemma for_each_ok {S A : Type} (body : S -> A -> result S) (step : S -> A -> S)
    (xs : list A) :
  (forall st x, body st x = Ok (step st x)) ->
  forall st, for_each body xs st = Ok (fold_left step xs st).
Proof.
  intros Hbody. induction xs as [|x rest IH]; intros st; simpl.
  - reflexivity.
  - rewrite Hbody. simpl. apply IH.
Qed.

Section Scans.

Variable float_of_str : string -> option float.

Lemma amount_cell (r : row) :
  (3 < List.length r)%nat ->
  (cell <- getitem r 3 ;; py_float float_of_str cell)
  = match amount_of float_of_str r with
    | Some a => Ok a
    | None => Raise ValueError
    end.
Proof.
  intros Hlen. unfold getitem, amount_of, py_float.
  destruct (nth_error r 3) as [cell|] eqn:Hnth; simpl.
  - reflexivity.
  - apply nth_error_None in Hnth. lia.
Qed.

Lemma monthly_row_step (employee_name month : string)
    (st : float * list detail) (r : row) :
  monthly_row float_of_str employee_name month st r
  = Ok (monthly_step float_of_str employee_name month st r).
Proof.
  destruct st as [total details].
  unfold monthly_row, monthly_step, row_matches, employee_field, period_field.
  rewrite !cell_or_empty_nth.
  destruct (5 <=? List.length r)%nat eqn:Hlen; [|reflexivity].
  apply Nat.leb_le in Hlen.
  assert (H3 : (3 <? List.length r)%nat = true) by (apply Nat.ltb_lt; lia).
  rewrite H3, amount_cell by lia.
  unfold detail_of, date_field, items_field. cbn [bind andb fst snd].
  destruct ((nth 1 r "" =? employee_name) && (nth 4 r "" =? month)); [|reflexivity].
  destruct (amount_of float_of_str r) as [a|]; cbn; now rewrite ?app_nil_r.
Qed.

Lemma daily_row_step (date : string) (employee_name : option string)
    (daily_debts : list daily_debt) (r : row) :
  daily_row float_of_str date employee_name daily_debts r
  = Ok (daily_step float_of_str date employee_name daily_debts r).
Proof.
  unfold daily_row, daily_step, daily_matches, date_field, employee_field.
  rewrite !cell_or_empty_nth.
  destruct (4 <=? List.length r)%nat eqn:Hlen; [|reflexivity].
  apply Nat.leb_le in Hlen.
  assert (H3 : (3 <? List.length r)%nat = true) by (apply Nat.ltb_lt; lia).
  rewrite H3, amount_cell by lia.
  unfold daily_of, items_field, employee_field. cbn [bind andb].
  destruct (nth 0 r "" =? date); [|reflexivity].
  destruct employee_name as [v|]; cbn [truthy value negb orb andb].
  - destruct (v =? ""), (nth 1 r "" =? v); cbn [negb orb andb];
      destruct (amount_of float_of_str r) as [a|]; cbn; now rewrite ?app_nil_r.
  - destruct (amount_of float_of_str r) as [a|]; cbn; now rewrite ?app_nil_r.
Qed.

Lemma fold_monthly_step (employee_name month : string) (rows : list row) :
  forall total details,
    fold_left (monthly_step float_of_str employee_name month) rows (total, details)
    = (fold_left PrimFloat.add
         (map detail_amount
            (flat_map (detail_of float_of_str) (filter (row_matches employee_name month) rows)))
         total,
       details
       ++ flat_map (detail_of float_of_str) (filter (row_matches employee_name month) rows)).
Proof.
  induction rows as [|r rest IH]; intros total details; simpl.
  - now rewrite app_nil_r.
  - unfold monthly_step at 2.
    destruct (row_matches employee_name month r); simpl.
    + rewrite IH, map_app, fold_left_app, <- app_assoc. reflexivity.
    + apply IH.
Qed.

Lemma fold_daily_step (date : string) (employee_name : option string)
    (rows : list row) :
  forall daily_debts,
    fold_left (daily_step float_of_str date employee_name) rows daily_debts
    = daily_debts
      ++ flat_map (daily_of float_of_str) (filter (daily_matches date employee_name) rows).
Proof.
  induction rows as [|r rest IH]; intros daily_debts; simpl.
  - now rewrite app_nil_r.
  - unfold daily_step at 2.
    destruct (daily_matches date employee_name r); simpl.
    + rewrite IH, <- app_assoc. reflexivity.
    + apply IH.
Qed.

(** The monthly scan returns, and returns the matching entries and their sum. *)
Lemma total_for_period_spec (self : DebtBot) (employee_name month : string) :
  total_for_period float_of_str self employee_name month
  = Ok (matching_total float_of_str self employee_name month,
        matching_details float_of_str self employee_name month).
Proof.
  unfold total_for_period, matching_total, matching_details, debts_rows, sum_amounts.
  destruct (List.length (get_sheet_data self (SHEET_NAMES "debts")) <? 2)%nat eqn:Hlen.
  - apply Nat.ltb_lt in Hlen.
    destruct (get_sheet_data self (SHEET_NAMES "debts")) as [|hdr [|r rest]];
      simpl in *; try reflexivity; lia.
  - rewrite (for_each_ok _ (monthly_step float_of_str employee_name month))
      by (intros; apply monthly_row_step).
    now rewrite fold_monthly_step.
Qed.

(** The daily scan returns, and returns the matching entries. *)
Lemma get_daily_debts_spec (self : DebtBot) (date : string)
    (employee_name : option string) :
  get_daily_debts float_of_str self date employee_name
  = Ok (daily_entries float_of_str self date employee_name).
Proof.
  unfold get_daily_debts, daily_entries, debts_rows.
  destruct (List.length (get_sheet_data self (SHEET_NAMES "debts")) <? 2)%nat eqn:Hlen.
  - apply Nat.ltb_lt in Hlen.
    destruct (get_sheet_data self (SHEET_NAMES "debts")) as [|hdr [|r rest]];
      simpl in *; try reflexivity; lia.
  - rewrite (for_each_ok _ (daily_step float_of_str date employee_name))
      by (intros; apply daily_row_step).
    now rewrite fold_daily_step.
Qed.

Lemma calculate_monthly_debt_spec (self : DebtBot) (today : Datetime.t)
    (employee_name : string) (month : option string) :
  calculate_monthly_debt float_of_str self today employee_name month
  = Ok (matching_total float_of_str self employee_name (period_label today month),
        matching_details float_of_str self employee_name (period_label today month)).
Proof.
  unfold calculate_monthly_debt. apply total_for_period_spec.
Qed.

End Scans.

(** ** Lists and sheets: what the proofs below share *)

Lemma flat_map_filter_drop {A B : Type} (f : A -> list B) (p : A -> bool)
    (before after : list A) (x : A) :
  p x = false \/ f x = [] ->
  flat_map f (filter p (before ++ x :: after))
  = flat_map f (filter p (before ++ after)).
Proof.
  intros Hx. rewrite !filter_app, !flat_map_app. f_equal. simpl.
  destruct (p x) eqn:Hp; [|reflexivity].
  destruct Hx as [Hx|Hx]; [discriminate|]. simpl. now rewrite Hx.
Qed.

Lemma sublist_refl {A : Type} (l : list A) : sublist l l.
Proof. induction l; constructor; assumption. Qed.

Lemma sublist_app {A : Type} (l1 l2 k1 k2 : list A) :
  sublist l1 l2 -> sublist k1 k2 -> sublist (l1 ++ k1) (l2 ++ k2).
Proof.
  intros H Hk. induction H; simpl.
  - exact Hk.
  - now apply sublist_skip.
  - now apply sublist_cons.
Qed.

Lemma sublist_nil_l {A : Type} (l : list A) : sublist [] l.
Proof. induction l; constructor; assumption. Qed.

Lemma debts_rows_with_debts (self : DebtBot) (debts_data : sheet) :
  debts_rows (with_debts self debts_data) = tl debts_data.
Proof. reflexivity. Qed.

Lemma filter_debts_rows_append (self : DebtBot) (p : row -> bool) (r : row) :
  p r = false ->
  filter p (debts_rows (append_debt self r)) = filter p (debts_rows self).
Proof.
  intros Hp. unfold append_debt. rewrite debts_rows_with_debts.
  unfold debts_rows.
  destruct (get_sheet_data self (SHEET_NAMES "debts")) as [|hdr rest]; simpl.
  - reflexivity.
  - rewrite filter_app. simpl. rewrite Hp. apply app_nil_r.
Qed.

Lemma row_matches_iff (employee_name month : string) (r : row) :
  row_matches employee_name month r = true
  <-> (5 <= List.length r)%nat
      /\ employee_field r = employee_name /\ period_field r = month.
Proof.
  unfold row_matches. rewrite !andb_true_iff, Nat.leb_le, !String.eqb_eq. tauto.
Qed.

Lemma period_label_explicit (today : Datetime.t) (month : string) :
  month <> "" -> period_label today (Some month) = month.
Proof.
  intros Hne. unfold period_label, truthy.
  apply String.eqb_neq in Hne. now rewrite Hne.
Qed.

Lemma amount_of_some (float_of_str : string -> option float) (r : row) (a : float) :
  amount_of float_of_str r = Some a ->
  exists cell, nth_error r 3 = Some cell /\ float_of_str cell = Some a.
Proof.
  unfold amount_of. destruct (nth_error r 3) as [cell|]; [|discriminate].
  intros H. now exists cell.
Qed.

Lemma daily_matches_no_name (date : string) (employee : option string) (r : row) :
  truthy employee = false ->
  daily_matches date employee r
  = (4 <=? List.length r)%nat && (date_field r =? date).
Proof.
  intros Hfalsy. unfold daily_matches. rewrite Hfalsy. apply andb_true_r.
Qed.

Lemma daily_matches_name (date employee_name : string) (r : row) :
  employee_name <> "" ->
  daily_matches date (Some employee_name) r
  = (4 <=? List.length r)%nat && (date_field r =? date)
    && (employee_field r =? employee_name).
Proof.
  intros Hne. apply String.eqb_neq in Hne.
  unfold daily_matches, truthy, value. now rewrite Hne.
Qed.

Lemma daily_matches_weaken (date : string) (employee : option string) (r : row) :
  daily_matches date employee r = true -> daily_matches date None r = true.
Proof.
  unfold daily_matches. rewrite !andb_true_iff. intros [H _]. now split.
Qed.

(** Filtering rows by [p] and [q] and then mapping is mapping the rows kept
    by [p] and then filtering the entries by [g], when [g] reads off an entry
    what [q] reads off its row. *)
Lemma flat_map_filter_and {A B : Type} (f : A -> list B) (p q : A -> bool)
    (g : B -> bool) (rows : list A) :
  (forall r e, In e (f r) -> g e = q r) ->
  flat_map f (filter (fun r => p r && q r) rows)
  = filter g (flat_map f (filter p rows)).
Proof.
  intros Hg. induction rows as [|r rest IH]; [reflexivity|].
  cbn [filter]. destruct (p r); cbn [andb flat_map].
  - rewrite filter_app, <- IH.
    assert (Hr : filter g (f r) = if q r then f r else []).
    { specialize (Hg r). induction (f r) as [|e es IHe].
      - now destruct (q r).
      - cbn [filter]. rewrite (Hg e) by now left.
        destruct (q r) eqn:Hq.
        + f_equal. apply IHe. intros e' He'. apply Hg. now right.
        + apply IHe. intros e' He'. apply Hg. now right. }
    rewrite Hr. destruct (q r); reflexivity.
  - exact IH.
Qed.

(** ** The monthly and the daily scan *)

Section ScanClaims.

Variable float_of_str : string -> option float.

(** C1, as the code has it.  For every debts sheet, employee name and
    period label that is not empty, [calculate_monthly_debt] returns the sum
    of the parsed amounts of exactly the data rows whose employee field is
    the name and whose period field is the label (equal as strings), and
    the entries of those rows in row order; a row is among them only by
    that test, and a row [float] rejects gives no entry.  Appending a row
    that does not match changes neither total nor details. *)
Theorem calculate_monthly_debt_sums_matching_rows
    (self : DebtBot) (today : Datetime.t) (employee_name month : string) :
  month <> "" ->
  let rows := filter (row_matches employee_name month) (debts_rows self) in
  let details := flat_map (detail_of float_of_str) rows in
  calculate_monthly_debt float_of_str self today employee_name (Some month)
  = Ok (sum_amounts (map detail_amount details), details)
  /\ (forall r, In r rows <->
        In r (debts_rows self) /\ (5 <= List.length r)%nat
        /\ employee_field r = employee_name /\ period_field r = month)
  /\ (forall r, row_matches employee_name month r = false ->
        calculate_monthly_debt float_of_str (append_debt self r) today
          employee_name (Some month)
        = calculate_monthly_debt float_of_str self today employee_name
            (Some month)).
Proof.
  intros Hne. cbv zeta. split; [|split].
  - rewrite calculate_monthly_debt_spec, (period_label_explicit today month Hne).
    reflexivity.
  - intros r. rewrite filter_In, row_matches_iff. tauto.
  - intros r Hr. rewrite !calculate_monthly_debt_spec.
    rewrite (period_label_explicit today month Hne).
    unfold matching_total, matching_details.
    now rewrite (filter_debts_rows_append self _ r Hr).
Qed.

(** C6, as the code has it.  When the period label is not empty and no
    data row matches the name and the label (so also on an empty or
    header-only sheet), [calculate_monthly_debt] returns total 0 and no
    details, and does not raise. *)
Theorem calculate_monthly_debt_no_match
    (self : DebtBot) (today : Datetime.t) (employee_name month : string) :
  month <> "" ->
  ((forall r, In r (debts_rows self) ->
              row_matches employee_name month r = false) ->
     calculate_monthly_debt float_of_str self today employee_name (Some month)
     = Ok (0%float, []))
  /\ ((List.length (get_sheet_data self (SHEET_NAMES "debts")) < 2)%nat ->
        calculate_monthly_debt float_of_str self today employee_name (Some month)
        = Ok (0%float, [])).
Proof.
  intros Hne.
  assert (Hnone :
    (forall r, In r (debts_rows self) ->
               row_matches employee_name month r = false) ->
    calculate_monthly_debt float_of_str self today employee_name (Some month)
    = Ok (0%float, [])).
  { intros Hnone. rewrite calculate_monthly_debt_spec.
    rewrite (period_label_explicit today month Hne).
    unfold matching_total, matching_details.
    assert (Hfilter : filter (row_matches employee_name month) (debts_rows self) = []).
    { induction (debts_rows self) as [|r rest IH]; simpl; [reflexivity|].
      rewrite (Hnone r) by now left.
      apply IH. intros r' Hin. apply Hnone. now right. }
    now rewrite Hfilter. }
  split; [exact Hnone|].
  intros Hshort. apply Hnone. intros r Hin.
  assert (Hrows : debts_rows self = []).
  { unfold debts_rows in *.
    destruct (get_sheet_data self (SHEET_NAMES "debts")) as [|hdr [|r' rest]];
      simpl in *; try reflexivity; lia. }
  rewrite Hrows in Hin. contradiction.
Qed.

(** An empty or header-only debts sheet has no data row. *)
Lemma debts_rows_header_only (self : DebtBot) :
  (List.length (get_sheet_data self (SHEET_NAMES "debts")) < 2)%nat ->
  debts_rows self = [].
Proof.
  unfold debts_rows.
  destruct (get_sheet_data self (SHEET_NAMES "debts")) as [|hdr [|r rest]];
    simpl; intros H; try reflexivity; lia.
Qed.

(** C4.  A data row whose amount field [float] rejects is left out of the
    total and the details of the monthly scan (at every label, and so of
    [calculate_monthly_debt]) and out of the result of the daily scan: both
    return what they return on the sheet without that row, whatever rows
    stand before and after it, and neither raises. *)
Theorem unparsable_amount_row_is_skipped
    (self : DebtBot) (hdr : row) (before after : list row) (bad : row)
    (cell : string) :
  nth_error bad 3 = Some cell ->
  float_of_str cell = None ->
  forall (today : Datetime.t) (employee_name label : string)
         (month : option string) (date : string) (employee : option string),
    let with_bad := with_debts self (hdr :: before ++ bad :: after) in
    let without := with_debts self (hdr :: before ++ after) in
    total_for_period float_of_str with_bad employee_name label
    = total_for_period float_of_str without employee_name label
    /\ calculate_monthly_debt float_of_str with_bad today employee_name month
       = calculate_monthly_debt float_of_str without today employee_name month
    /\ get_daily_debts float_of_str with_bad date employee
       = get_daily_debts float_of_str without date employee
    /\ is_ok (calculate_monthly_debt float_of_str with_bad today employee_name month)
       = true
    /\ is_ok (get_daily_debts float_of_str with_bad date employee) = true.
Proof.
  intros Hcell Hparse today employee_name label month date employee. cbv zeta.
  assert (Hamount : amount_of float_of_str bad = None)
    by (unfold amount_of; now rewrite Hcell).
  rewrite !calculate_monthly_debt_spec, !total_for_period_spec,
    !get_daily_debts_spec.
  unfold matching_total, matching_details, daily_entries.
  rewrite !debts_rows_with_debts. simpl tl.
  rewrite !(flat_map_filter_drop (detail_of float_of_str) _ before after bad)
    by (right; unfold detail_of; now rewrite Hamount).
  rewrite (flat_map_filter_drop (daily_of float_of_str) _ before after bad)
    by (right; unfold daily_of; now rewrite Hamount).
  repeat split.
Qed.

(** C9.  A data row with fewer than five columns adds nothing to the total
    or the details of the monthly scan, whatever its cells and whatever the
    label (the empty one too), and so nothing to [calculate_monthly_debt]; a
    row with fewer than four columns adds nothing to the result of
    [get_daily_debts]; and on every sheet, rows of any length, both return
    and do not raise. *)
Theorem short_rows_are_ignored
    (self : DebtBot) (hdr : row) (before after : list row) (short : row)
    (today : Datetime.t) (employee_name label : string) (month : option string)
    (date : string) (employee : option string) :
  let with_short := with_debts self (hdr :: before ++ short :: after) in
  let without := with_debts self (hdr :: before ++ after) in
  ((List.length short < 5)%nat ->
     total_for_period float_of_str with_short employee_name label
     = total_for_period float_of_str without employee_name label
     /\ calculate_monthly_debt float_of_str with_short today employee_name month
        = calculate_monthly_debt float_of_str without today employee_name month)
  /\ ((List.length short < 4)%nat ->
        get_daily_debts float_of_str with_short date employee
        = get_daily_debts float_of_str without date employee)
  /\ is_ok (calculate_monthly_debt float_of_str self today employee_name month) = true
  /\ is_ok (get_daily_debts float_of_str self date employee) = true.
Proof.
  cbv zeta. split; [|split; [|split]].
  - intros Hlen.
    assert (Hscan : forall l,
      total_for_period float_of_str
        (with_debts self (hdr :: before ++ short :: after)) employee_name l
      = total_for_period float_of_str
          (with_debts self (hdr :: before ++ after)) employee_name l).
    { intros l. rewrite !total_for_period_spec.
      unfold matching_total, matching_details.
      rewrite !debts_rows_with_debts. simpl tl.
      rewrite !(flat_map_filter_drop (detail_of float_of_str) _ before after short);
        [reflexivity|].
      left. unfold row_matches.
      apply Nat.leb_gt in Hlen. now rewrite Hlen. }
    split; [apply Hscan|]. unfold calculate_monthly_debt. apply Hscan.
  - intros Hlen. rewrite !get_daily_debts_spec. unfold daily_entries.
    rewrite !debts_rows_with_debts. simpl tl.
    rewrite (flat_map_filter_drop (daily_of float_of_str) _ before after short);
      [reflexivity|].
    left. unfold daily_matches.
    apply Nat.leb_gt in Hlen. now rewrite Hlen.
  - now rewrite calculate_monthly_debt_spec.
  - now rewrite get_daily_debts_spec.
Qed.

(** C10.  [get_daily_debts] called with the empty string as employee name
    returns what it returns with no employee at all: the entries of every
    row of that date, whatever its employee field. *)
Theorem get_daily_debts_empty_name_is_no_filter (self : DebtBot) (date : string) :
  get_daily_debts float_of_str self date (Some "")
  = get_daily_debts float_of_str self date None
  /\ get_daily_debts float_of_str self date (Some "")
     = Ok (flat_map (daily_of float_of_str)
             (filter (fun r => (4 <=? List.length r)%nat && (date_field r =? date))
                (debts_rows self))).
Proof.
  rewrite !get_daily_debts_spec. unfold daily_entries.
  rewrite (filter_ext (daily_matches date (Some ""))
             (fun r => (4 <=? List.length r)%nat && (date_field r =? date)))
    by (intros r; now apply daily_matches_no_name).
  rewrite (filter_ext (daily_matches date None)
             (fun r => (4 <=? List.length r)%nat && (date_field r =? date)))
    by (intros r; now apply daily_matches_no_name).
  split; reflexivity.
Qed.

(** C5, as the code has it.  Every amount that enters the total and details
    of [calculate_monthly_debt] or the result of [get_daily_debts] is the
    value [float] gives for the amount field of a data row, and the total is
    the sum of the amounts in the details; rows [float] rejects give no
    entry.  The sign of the value is not looked at. *)
Theorem included_amounts_are_parsed
    (self : DebtBot) (today : Datetime.t) (employee_name : string)
    (month : option string) (date : string) (employee : option string) :
  exists total details daily_debts,
    calculate_monthly_debt float_of_str self today employee_name month
    = Ok (total, details)
    /\ get_daily_debts float_of_str self date employee = Ok daily_debts
    /\ total = sum_amounts (map detail_amount details)
    /\ Forall (fun d => exists r cell,
                 In r (debts_rows self) /\ nth_error r 3 = Some cell
                 /\ float_of_str cell = Some (detail_amount d)) details
    /\ Forall (fun e => exists r cell,
                 In r (debts_rows self) /\ nth_error r 3 = Some cell
                 /\ float_of_str cell = Some (daily_amount e)) daily_debts.
Proof.
  eexists _, _, _.
  rewrite calculate_monthly_debt_spec, get_daily_debts_spec.
  repeat split.
  - apply Forall_forall. intros d Hd. unfold matching_details in Hd.
    apply in_flat_map in Hd. destruct Hd as (r & Hr & Hd).
    apply filter_In in Hr. destruct Hr as [Hr _].
    unfold detail_of in Hd.
    destruct (amount_of float_of_str r) as [a|] eqn:Ha; [|contradiction].
    destruct Hd as [<-|[]]. simpl.
    apply amount_of_some in Ha. destruct Ha as (cell & Hcell & Hparse).
    now exists r, cell.
  - apply Forall_forall. intros e He. unfold daily_entries in He.
    apply in_flat_map in He. destruct He as (r & Hr & He).
    apply filter_In in Hr. destruct Hr as [Hr _].
    unfold daily_of in He.
    destruct (amount_of float_of_str r) as [a|] eqn:Ha; [|contradiction].
    destruct He as [<-|[]]. simpl.
    apply amount_of_some in Ha. destruct Ha as (cell & Hcell & Hparse).
    now exists r, cell.
Qed.

(** C8, as the code has it.  The result of [get_daily_debts] with an
    employee name is a sub-sequence of its result for the same date without
    one, and it may be the whole of it; with a name that is not empty it
    holds exactly the entries of the unfiltered result whose employee is
    that name, that is the entries of the rows whose date field is the
    date and whose employee field is the name. *)
Theorem get_daily_debts_employee_filter
    (self : DebtBot) (date employee_name : string) :
  exists filtered unfiltered,
    get_daily_debts float_of_str self date (Some employee_name) = Ok filtered
    /\ get_daily_debts float_of_str self date None = Ok unfiltered
    /\ sublist filtered unfiltered
    /\ (employee_name <> "" ->
          filtered = filter (fun e => daily_employee e =? employee_name) unfiltered
          /\ filtered
             = flat_map (daily_of float_of_str)
                 (filter (fun r => (4 <=? List.length r)%nat
                                   && (date_field r =? date)
                                   && (employee_field r =? employee_name))
                    (debts_rows self))).
Proof.
  eexists _, _. rewrite !get_daily_debts_spec.
  split; [reflexivity|]. split; [reflexivity|]. split.
  - unfold daily_entries.
    induction (debts_rows self) as [|r rest IH]; [constructor|].
    cbn [filter].
    destruct (daily_matches date (Some employee_name) r) eqn:Hmine.
    + rewrite (daily_matches_weaken _ _ _ Hmine). cbn [flat_map].
      apply sublist_app; [apply sublist_refl|exact IH].
    + destruct (daily_matches date None r); cbn [flat_map]; [|exact IH].
      apply (sublist_app [] _ _ _ (sublist_nil_l _) IH).
  - intros Hne.
    assert (Hrows :
      daily_entries float_of_str self date (Some employee_name)
      = flat_map (daily_of float_of_str)
          (filter (fun r => (4 <=? List.length r)%nat && (date_field r =? date)
                            && (employee_field r =? employee_name))
             (debts_rows self))).
    { unfold daily_entries. f_equal. apply filter_ext. intros r.
      now apply daily_matches_name. }
    split; [|exact Hrows].
    rewrite Hrows. unfold daily_entries.
    rewrite (filter_ext (daily_matches date None)
               (fun r => (4 <=? List.length r)%nat && (date_field r =? date)))
      by (intros r; now apply daily_matches_no_name).
    apply flat_map_filter_and.
    intros r e He. unfold daily_of in He.
    destruct (amount_of float_of_str r); [|contradiction].
    destruct He as [<-|[]]. reflexivity.
Qed.

End ScanClaims.

(** ** The period label *)

Lemma previous_month_cases (y m : Z) :
  (1 <= m <= 12)%Z ->
  previous_month y m = if (1 <? m)%Z then (y, (m - 1)%Z) else ((y - 1)%Z, 12%Z).
Proof.
  intros Hm. unfold previous_month. cbv zeta.
  destruct (1 <? m)%Z eqn:Hlt.
  - apply Z.ltb_lt in Hlt.
    assert (Hq : ((12 * y + (m - 1) - 1) / 12 = y)%Z)
      by (symmetry; apply (Z.div_unique _ 12 y (m - 2)); lia).
    assert (Hr : ((12 * y + (m - 1) - 1) mod 12 = m - 2)%Z)
      by (symmetry; apply (Z.mod_unique _ 12 y (m - 2)); lia).
    rewrite Hq, Hr. f_equal. lia.
  - apply Z.ltb_ge in Hlt.
    assert (Hq : ((12 * y + (m - 1) - 1) / 12 = y - 1)%Z)
      by (symmetry; apply (Z.div_unique _ 12 (y - 1) 11); lia).
    assert (Hr : ((12 * y + (m - 1) - 1) mod 12 = 11)%Z)
      by (symmetry; apply (Z.mod_unique _ 12 (y - 1) 11); lia).
    rewrite Hq, Hr. reflexivity.
Qed.

(** C2.  For every valid date, the period label is the month and year of
    the date's own month from the 10th on, and the month and year of the
    month before it up to the 9th, January giving December of the year
    before. *)
Theorem resolve_period_is_billing_month (d : Datetime.t) :
  Datetime.valid d ->
  ((10 <= Datetime.day d)%Z ->
     resolve_period d = Datetime.month_label (Datetime.year d) (Datetime.month d))
  /\ ((Datetime.day d < 10)%Z ->
        resolve_period d
        = Datetime.month_label
            (fst (previous_month (Datetime.year d) (Datetime.month d)))
            (snd (previous_month (Datetime.year d) (Datetime.month d)))).
Proof.
  intros [Hmonth _]. unfold resolve_period. split; intros Hday.
  - apply Z.leb_le in Hday. now rewrite Hday.
  - apply Z.leb_gt in Hday. rewrite Hday.
    rewrite previous_month_cases by assumption.
    unfold Datetime.sub_one_day, Datetime.replace_day, Datetime.strftime_B_Y.
    cbn [Datetime.day Datetime.month Datetime.year].
    rewrite Z.ltb_irrefl.
    destruct (1 <? Datetime.month d)%Z; reflexivity.
Qed.

(** The rollover of the specification: 5 January 2024 is in the period
    labelled December 2023; the 10th is in January's. *)
Example resolve_period_january_5th :
  resolve_period (Datetime.mk 2024 1 5) = "December 2023"
  /\ resolve_period (Datetime.mk 2024 1 9) = "December 2023"
  /\ resolve_period (Datetime.mk 2024 1 10) = "January 2024"
  /\ resolve_period (Datetime.mk 2024 3 1) = "February 2024".
Proof. repeat split. Qed.

(** ** The summary and the itemised view *)

Lemma string_append_assoc (a b c : string) :
  ((a ++ b) ++ c)%string = (a ++ (b ++ c))%string.
Proof. induction a as [|ch a IH]; simpl; [reflexivity|now rewrite IH]. Qed.

Lemma get_all_employees_spec (self : DebtBot) :
  get_all_employees self = Ok (employee_names self).
Proof.
  unfold get_all_employees, employee_names.
  destruct (List.length (get_sheet_data self (SHEET_NAMES "employees")) <? 2)%nat
    eqn:Hlen.
  - apply Nat.ltb_lt in Hlen.
    destruct (get_sheet_data self (SHEET_NAMES "employees")) as [|hdr [|r rest]];
      simpl in *; try reflexivity; lia.
  - rewrite (for_each_ok _
      (fun employees r =>
         if (1 <? List.length r)%nat then employees ++ [employee_field r]
         else employees)).
    + set (rows := tl (get_sheet_data self (SHEET_NAMES "employees"))).
      assert (Hfold : forall acc,
        fold_left
          (fun employees r =>
             if (1 <? List.length r)%nat then employees ++ [employee_field r]
             else employees) rows acc
        = acc ++ map employee_field
                   (filter (fun r => (1 <? List.length r)%nat) rows)).
      { induction rows as [|r rest IH]; intros acc; simpl.
        - now rewrite app_nil_r.
        - destruct (1 <? List.length r)%nat; simpl.
          + now rewrite IH, <- app_assoc.
          + apply IH. }
      now rewrite Hfold.
    + intros employees r.
      destruct (1 <? List.length r)%nat eqn:Hr; [|reflexivity].
      unfold getitem, employee_field.
      destruct (nth_error r 1) as [name|] eqn:Hnth.
      * now rewrite (nth_error_nth r 1 "" Hnth).
      * apply nth_error_None in Hnth. apply Nat.ltb_lt in Hr. lia.
Qed.

(** A total that equals zero is not greater than zero. *)
Lemma float_zero_not_positive (x : float) :
  (x =? 0)%float = true -> (0 <? x)%float = false.
Proof.
  rewrite FloatAxioms.eqb_spec, FloatAxioms.ltb_spec.
  change (Prim2SF 0) with (S754_zero false).
  unfold SFeqb, SFltb.
  destruct (Prim2SF x) as [s|s| |s m e]; simpl;
    try reflexivity; try discriminate; destruct s; discriminate.
Qed.

(** The loop of the summary, over any way to get a total and a line. *)
Lemma summary_fold (total_of : string -> float) (line : string -> string)
    (employees : list string) :
  forall (total : float) (summary : list string),
    fold_left
      (fun (st : float * list string) employee =>
         if (0 <? total_of employee)%float
         then ((fst st + total_of employee)%float, snd st ++ [line employee])
         else st)
      employees (total, summary)
    = (fold_left PrimFloat.add
         (map total_of (filter (fun e => (0 <? total_of e)%float) employees)) total,
       summary ++ map line (filter (fun e => (0 <? total_of e)%float) employees)).
Proof.
  induction employees as [|e es IH]; intros total summary.
  - simpl. now rewrite app_nil_r.
  - cbn [fold_left filter].
    destruct (0 <? total_of e)%float; cbn [fst snd map fold_left].
    + rewrite IH, <- app_assoc. reflexivity.
    + apply IH.
Qed.

Section Presentation.

Variable float_of_str : string -> option float.
Variable str_of_float : float -> string.

(** C3.  For every employees sheet, debts sheet and period argument, the
    summary lists exactly the enumerated employee names (in sheet order,
    repeats kept) whose [calculate_monthly_debt] total is greater than 0,
    each with that total, and its grand total is the sum of the totals
    listed; an employee whose total equals 0 is not listed. *)
Theorem get_all_debts_summary_lists_positive_totals
    (self : DebtBot) (today : Datetime.t) (month : option string) :
  let total_of := fun employee =>
    matching_total float_of_str self employee (period_label today month) in
  let included :=
    filter (fun employee => (0 <? total_of employee)%float) (employee_names self) in
  get_all_debts_summary float_of_str str_of_float self today month
  = Ok (sum_amounts (map total_of included),
        map (fun employee => summary_line str_of_float employee (total_of employee))
          included)
  /\ (forall employee, exists details,
        calculate_monthly_debt float_of_str self today employee month
        = Ok (total_of employee, details))
  /\ (forall employee,
        (total_of employee =? 0)%float = true -> ~ In employee included).
Proof.
  cbv zeta. split; [|split].
  - unfold get_all_debts_summary. rewrite get_all_employees_spec. cbn [bind].
    set (total_of := fun employee =>
      matching_total float_of_str self employee (period_label today month)).
    rewrite (for_each_ok _
      (fun (st : float * list string) employee =>
         if (0 <? total_of employee)%float
         then ((fst st + total_of employee)%float,
               snd st ++ [(fun e => summary_line str_of_float e (total_of e)) employee])
         else st)).
    + now rewrite summary_fold.
    + intros [total summary] employee. unfold summary_row.
      rewrite calculate_monthly_debt_spec. cbn [bind fst snd].
      fold (total_of employee). now destruct (0 <? total_of employee)%float.
  - intros employee. eexists. apply calculate_monthly_debt_spec.
  - intros employee Hzero Hin. apply filter_In in Hin. destruct Hin as [_ Hpos].
    now rewrite (float_zero_not_positive _ Hzero) in Hpos.
Qed.

(** The running total after each entry of a list of details. *)
Lemma running_total_fold (details : list detail) :
  forall (running_total : float) (message : string),
    fold_left (running_total_row str_of_float) details (running_total, message)
    = (fold_left PrimFloat.add (map detail_amount details) running_total,
       (message
        ++ concat_strings
             (map (fun i =>
                     detail_lines str_of_float (nth i details no_detail)
                       (fold_left PrimFloat.add
                          (map detail_amount (firstn (S i) details))
                          running_total))
                (seq 0 (List.length details))))%string).
Proof.
  induction details as [|d rest IH]; intros running_total message.
  - simpl. f_equal. clear. induction message; simpl; congruence.
  - cbn [fold_left running_total_row List.length map].
    rewrite IH. f_equal.
    rewrite <- cons_seq, <- seq_shift, map_cons, map_map.
    cbn [concat_strings fold_right firstn map fold_left nth].
    rewrite string_append_assoc. reflexivity.
Qed.

(** The loop of lines 347-356, entered with [details]: its running total
    is the cumulative sum of the amounts in the order of [details]; the
    message is its first line, then for the i-th entry its lines with the
    sum of the first i amounts, then the line of the total. *)
Theorem running_total_is_cumulative_sum
    (month : string) (total : float) (details : list detail) :
  details_message str_of_float month total details
  = (("📋 Детализация долга за " ++ month ++ ":" ++ nl ++ nl)
     ++ concat_strings
          (map (fun i =>
                  detail_lines str_of_float (nth i details no_detail)
                    (sum_amounts (map detail_amount (firstn (S i) details))))
             (seq 0 (List.length details)))
     ++ "✅ Итого: " ++ str_of_float total ++ " ₽")%string.
Proof.
  unfold details_message. cbv zeta.
  rewrite running_total_fold. unfold sum_amounts.
  now rewrite string_append_assoc.
Qed.

(** The example of the specification: amounts 10, 5 and 20 are shown with
    the running totals 10, 15 and 35, in that order. *)
Example running_total_10_5_20 (month : string) (total : float) :
  let entry := fun date a =>
    {| detail_date := date; detail_items := "tea"; detail_amount := a |} in
  details_message str_of_float month total
    [entry "01.01.2024" 10%float; entry "02.01.2024" 5%float;
     entry "03.01.2024" 20%float]
  = (("📋 Детализация долга за " ++ month ++ ":" ++ nl ++ nl)
     ++ detail_lines str_of_float (entry "01.01.2024" 10%float) 10
     ++ detail_lines str_of_float (entry "02.01.2024" 5%float) 15
     ++ detail_lines str_of_float (entry "03.01.2024" 20%float) 35
     ++ "✅ Итого: " ++ str_of_float total ++ " ₽")%string.
Proof.
  cbv zeta. unfold details_message. cbn [fold_left running_total_row detail_amount].
  repeat rewrite string_append_assoc. reflexivity.
Qed.

End Presentation.

(** ** The functions run on concrete sheets *)

Example ascii_float_samples :
  map ascii_float ["10"; " 12.50 "; "-5"; "1e3"; "1_000"; "abc"; ""; "12,5"; "inf"]
  = [Some 10%float; Some 12.5%float; Some (-5)%float; Some 1000%float;
     Some 1000%float; None; None; None; Some infinity].
Proof. reflexivity. Qed.

(** One malformed row among five: the sum of the four valid ones. *)
Example malformed_row_among_five :
  calculate_monthly_debt ascii_float (bot_of [] malformed_debts) mid_january "Ann" None
  = Ok (45.5%float,
        [ {| detail_date := "15.01.2024"; detail_items := "tea"; detail_amount := 10 |};
          {| detail_date := "15.01.2024"; detail_items := "pie"; detail_amount := 5.5 |};
          {| detail_date := "15.01.2024"; detail_items := "bun"; detail_amount := 20 |};
          {| detail_date := "15.01.2024"; detail_items := "egg"; detail_amount := 10 |} ]).
Proof. reflexivity. Qed.

(** A = 50, B = 0, C = 30: A and C are listed, the grand total is 80. *)
Example summary_of_abc (str_of_float : float -> string) :
  get_all_debts_summary ascii_float str_of_float abc_bot mid_january None
  = Ok (80%float,
        [summary_line str_of_float "A" 50; summary_line str_of_float "C" 30]).
Proof. reflexivity. Qed.

(** A row without the period column does not match the empty label. *)
Example short_row_and_empty_label :
  total_for_period ascii_float
    (bot_of [] [debts_header; ["15.01.2024"; "Ann"; "tea"; "10"]]) "Ann" ""
  = Ok (0%float, [])
  /\ total_for_period ascii_float
       (bot_of [] [debts_header; ["15.01.2024"; "Ann"; "tea"; "10"; ""]]) "Ann" ""
     = Ok (10%float,
           [ {| detail_date := "15.01.2024"; detail_items := "tea";
                detail_amount := 10 |} ]).
Proof. split; reflexivity. Qed.

(** An empty month argument selects the current period, like a missing one. *)
Example empty_month_is_current_period :
  calculate_monthly_debt ascii_float january_bot mid_january "Bob" (Some "")
  = calculate_monthly_debt ascii_float january_bot mid_january "Bob" None
  /\ calculate_monthly_debt ascii_float january_bot mid_january "Bob" None
     = Ok (5%float,
           [ {| detail_date := "16.01.2024"; detail_items := "pie";
                detail_amount := 5 |} ]).
Proof. split; reflexivity. Qed.

(** *** The hypotheses of the theorems are met *)

Lemma calculate_monthly_debt_sums_matching_rows_witness :
  calculate_monthly_debt ascii_float january_bot mid_january "Ann"
    (Some "January 2024")
  = Ok (30%float,
        [ {| detail_date := "15.01.2024"; detail_items := "tea"; detail_amount := 10 |};
          {| detail_date := "17.01.2024"; detail_items := "jam"; detail_amount := 20 |} ])
  /\ calculate_monthly_debt ascii_float
       (append_debt january_bot ["18.01.2024"; "Bob"; "bun"; "7"; "January 2024"])
       mid_january "Ann" (Some "January 2024")
     = calculate_monthly_debt ascii_float january_bot mid_january "Ann"
         (Some "January 2024").
Proof.
  assert (Hne : "January 2024" <> "") by discriminate.
  destruct (calculate_monthly_debt_sums_matching_rows ascii_float january_bot
              mid_january "Ann" "January 2024" Hne) as (Hcall & _ & Happend).
  split.
  - rewrite Hcall. reflexivity.
  - apply (Happend ["18.01.2024"; "Bob"; "bun"; "7"; "January 2024"] eq_refl).
Defined.

Lemma calculate_monthly_debt_no_match_witness :
  calculate_monthly_debt ascii_float january_bot mid_january "Cy"
    (Some "January 2024")
  = Ok (0%float, [])
  /\ calculate_monthly_debt ascii_float (bot_of [] [debts_header]) mid_january
       "Ann" (Some "January 2024")
     = Ok (0%float, []).
Proof.
  assert (Hne : "January 2024" <> "") by discriminate.
  split.
  - apply (proj1 (calculate_monthly_debt_no_match ascii_float january_bot
                    mid_january "Cy" "January 2024" Hne)).
    intros r [<-|[<-|[<-|[]]]]; reflexivity.
  - apply (proj2 (calculate_monthly_debt_no_match ascii_float
                    (bot_of [] [debts_header]) mid_january "Ann" "January 2024"
                    Hne)).
    cbn. lia.
Defined.

Lemma unparsable_amount_row_is_skipped_witness :
  calculate_monthly_debt ascii_float (bot_of [] malformed_debts) mid_january "Ann" None
  = calculate_monthly_debt ascii_float
      (with_debts (bot_of [] [])
         [ debts_header;
           ["15.01.2024"; "Ann"; "tea"; "10"; "January 2024"];
           ["15.01.2024"; "Ann"; "pie"; "5.5"; "January 2024"];
           ["15.01.2024"; "Ann"; "bun"; "20"; "January 2024"];
           ["15.01.2024"; "Ann"; "egg"; "1e1"; "January 2024"] ])
      mid_january "Ann" None.
Proof.
  exact (proj1 (proj2 (unparsable_amount_row_is_skipped ascii_float (bot_of [] [])
                  debts_header
                  [ ["15.01.2024"; "Ann"; "tea"; "10"; "January 2024"];
                    ["15.01.2024"; "Ann"; "pie"; "5.5"; "January 2024"] ]
                  [ ["15.01.2024"; "Ann"; "bun"; "20"; "January 2024"];
                    ["15.01.2024"; "Ann"; "egg"; "1e1"; "January 2024"] ]
                  ["15.01.2024"; "Ann"; "jam"; "abc"; "January 2024"]
                  "abc" eq_refl eq_refl mid_january "Ann" "" None "15.01.2024"
                  None))).
Defined.

Lemma short_rows_are_ignored_witness :
  calculate_monthly_debt ascii_float
    (with_debts january_bot
       [debts_header; ["15.01.2024"; "Ann"; "tea"; "10"];
        ["17.01.2024"; "Ann"; "jam"; "20"; "January 2024"]])
    mid_january "Ann" None
  = calculate_monthly_debt ascii_float
      (with_debts january_bot
         [debts_header; ["17.01.2024"; "Ann"; "jam"; "20"; "January 2024"]])
      mid_january "Ann" None
  /\ get_daily_debts ascii_float
       (with_debts january_bot
          [debts_header; ["15.01.2024"; "Ann"; "tea"];
           ["15.01.2024"; "Bob"; "pie"; "5"]])
       "15.01.2024" None
     = get_daily_debts ascii_float
         (with_debts january_bot [debts_header; ["15.01.2024"; "Bob"; "pie"; "5"]])
         "15.01.2024" None.
Proof.
  split.
  - apply (proj1 (short_rows_are_ignored ascii_float january_bot debts_header []
                    [["17.01.2024"; "Ann"; "jam"; "20"; "January 2024"]]
                    ["15.01.2024"; "Ann"; "tea"; "10"]
                    mid_january "Ann" "" None "15.01.2024" None)).
    simpl. lia.
  - apply (proj1 (proj2 (short_rows_are_ignored ascii_float january_bot debts_header []
                           [["15.01.2024"; "Bob"; "pie"; "5"]]
                           ["15.01.2024"; "Ann"; "tea"]
                           mid_january "Ann" "" None "15.01.2024" None))).
    simpl. lia.
Defined.

Lemma resolve_period_is_billing_month_witness :
  resolve_period (Datetime.mk 2024 1 5) = "December 2023"
  /\ resolve_period (Datetime.mk 2024 2 29) = "February 2024".
Proof.
  split.
  - assert (Hvalid : Datetime.valid (Datetime.mk 2024 1 5))
      by (unfold Datetime.valid; cbn; lia).
    rewrite (proj2 (resolve_period_is_billing_month _ Hvalid)).
    + reflexivity.
    + simpl. lia.
  - assert (Hvalid : Datetime.valid (Datetime.mk 2024 2 29))
      by (unfold Datetime.valid; cbn; lia).
    rewrite (proj1 (resolve_period_is_billing_month _ Hvalid)).
    + reflexivity.
    + simpl. lia.
Defined.

Lemma get_all_debts_summary_lists_positive_totals_witness :
  ~ In "B"
      (filter
         (fun employee =>
            (0 <? matching_total ascii_float abc_bot employee
                    (period_label mid_january None))%float)
         (employee_names abc_bot)).
Proof.
  apply (proj2 (proj2 (get_all_debts_summary_lists_positive_totals ascii_float
                         (fun _ => "") abc_bot mid_january None))).
  reflexivity.
Defined.

Lemma get_daily_debts_employee_filter_witness :
  exists filtered unfiltered,
    get_daily_debts ascii_float january_bot "16.01.2024" (Some "Ann") = Ok filtered
    /\ get_daily_debts ascii_float january_bot "16.01.2024" None = Ok unfiltered
    /\ filtered = filter (fun e => daily_employee e =? "Ann") unfiltered.
Proof.
  destruct (get_daily_debts_employee_filter ascii_float january_bot
              "16.01.2024" "Ann")
    as (filtered & unfiltered & Hmine & Hall & _ & Hfilter).
  exists filtered, unfiltered. repeat split; try assumption.
  apply Hfilter. discriminate.
Defined.

(** *** Where the specification says more than the code does *)

(** C1 as stated fails at the empty period label: a row of Ann whose period
    field is empty matches that label, yet [calculate_monthly_debt] called
    with it returns no entry and total 0, since it scans with the label of
    the current period. *)
Lemma empty_label_row_is_not_summed :
  row_matches "Ann" "" ["15.01.2024"; "Ann"; "tea"; "10"; ""] = true
  /\ ascii_float "10" = Some 10%float
  /\ calculate_monthly_debt ascii_float
       (bot_of [] [debts_header; ["15.01.2024"; "Ann"; "tea"; "10"; ""]])
       mid_january "Ann" (Some "")
     = Ok (0%float, []).
Proof. repeat split. Qed.

(** C6 as stated fails at the empty period label: no row of the January
    sheet matches Bob and the empty label, yet [calculate_monthly_debt]
    called with it returns Bob's debt of the current period. *)
Lemma empty_label_returns_current_period :
  filter (row_matches "Bob" "") (debts_rows january_bot) = []
  /\ calculate_monthly_debt ascii_float january_bot mid_january "Bob" (Some "")
     = Ok (5%float,
           [ {| detail_date := "16.01.2024"; detail_items := "pie";
                detail_amount := 5 |} ]).
Proof. split; reflexivity. Qed.

(** C5 as stated fails: a row whose amount is [-5] is included, in the
    total and details of the monthly scan and in the result of the daily
    scan, and its amount is negative. *)
Lemma negative_amount_is_included :
  ascii_float "-5" = Some (-5)%float
  /\ calculate_monthly_debt ascii_float (bot_of [] refund_debts) mid_january "Ann"
       (Some "January 2024")
     = Ok ((-5)%float,
           [ {| detail_date := "17.01.2024"; detail_items := "jam";
                detail_amount := -5 |} ])
  /\ get_daily_debts ascii_float (bot_of [] refund_debts) "17.01.2024" None
     = Ok [ {| daily_employee := "Ann"; daily_items := "jam"; daily_amount := -5 |} ]
  /\ (-5 <? 0)%float = true.
Proof. repeat split. Qed.

(** C8 as stated fails: when every entry of the date is the employee's, the
    filtered result is the whole unfiltered result, not a strict subset. *)
Lemma employee_filter_can_keep_everything :
  get_daily_debts ascii_float january_bot "15.01.2024" (Some "Ann")
  = Ok [ {| daily_employee := "Ann"; daily_items := "tea"; daily_amount := 10 |} ]
  /\ get_daily_debts ascii_float january_bot "15.01.2024" None
     = Ok [ {| daily_employee := "Ann"; daily_items := "tea"; daily_amount := 10 |} ].
Proof. split; reflexivity. Qed.

(** ** The default of the month argument *)

(** A missing month and an empty one both select the current period: the
    scan then runs with the label computed from the clock, so rows whose
    period field is empty are not matched by an empty argument. *)
Theorem calculate_monthly_debt_default_month
    (float_of_str : string -> option float) (self : DebtBot)
    (today : Datetime.t) (employee_name : string) :
  calculate_monthly_debt float_of_str self today employee_name (Some "")
  = calculate_monthly_debt float_of_str self today employee_name None
  /\ calculate_monthly_debt float_of_str self today employee_name None
     = total_for_period float_of_str self employee_name (resolve_period today).
Proof. split; reflexivity. Qed.

(** * More of the bot *)

(** ** Roles and names *)

Lemma first_row_of_spec (id : string) (rows : list row) :
  first_row_of id rows = Ok (row_of_id id rows).
Proof.
  induction rows as [|r rest IH]; [reflexivity|].
  cbn [first_row_of row_of_id find].
  destruct r as [|cell r']; cbn.
  - exact IH.
  - destruct (cell =? id); [reflexivity|exact IH].
Qed.

Lemma row_of_id_has_id (id : string) (rows : list row) :
  has_id id rows = match row_of_id id rows with Some _ => true | None => false end.
Proof.
  unfold has_id, row_of_id.
  induction rows as [|r rest IH]; [reflexivity|].
  cbn [existsb find]. destruct r as [|cell r']; cbn [orb].
  - exact IH.
  - destruct (cell =? id); [reflexivity|exact IH].
Qed.


(** [get_user_role] returns and does not raise; a user whose id is the
    first cell of a data row of the admins sheet is an admin, also when the
    employees sheet lists the id too; otherwise a user listed in the
    employees sheet is an employee; every other user is unknown.  The header
    rows give no role and rows without cells are passed over. *)
Theorem get_user_role_precedence (self : DebtBot) (user_id : Z) :
  let id := py_str_int user_id in
  let admin := has_id id (tl (get_sheet_data self (SHEET_NAMES "admins"))) in
  let employee := has_id id (tl (get_sheet_data self (SHEET_NAMES "employees"))) in
  exists role,
    get_user_role self user_id = Ok role
    /\ (role = "admin" <-> admin = true)
    /\ (role = "employee" <-> admin = false /\ employee = true)
    /\ (role = "unknown" <-> admin = false /\ employee = false).
Proof.
  cbv zeta. unfold get_user_role.
  rewrite !first_row_of_spec, !row_of_id_has_id. cbn [bind].
  destruct (row_of_id (py_str_int user_id)
              (tl (get_sheet_data self (SHEET_NAMES "admins")))) as [r|].
  - exists "admin". repeat split; try discriminate; intros [H _]; discriminate.
  - rewrite ?first_row_of_spec. cbn [bind].
    destruct (row_of_id (py_str_int user_id)
                (tl (get_sheet_data self (SHEET_NAMES "employees")))) as [r|].
    + exists "employee". repeat split; try discriminate.
      intros [_ H]; discriminate.
    + exists "unknown". repeat split; try discriminate.
      intros [_ H]; discriminate.
Qed.


(** ** The label shown and the label summed *)

Lemma month_label_nonempty (y m : Z) : Datetime.month_label y m <> "".
Proof.
  unfold Datetime.month_label.
  destruct (Datetime.month_name m); discriminate.
Qed.

Lemma resolve_period_nonempty (today : Datetime.t) : resolve_period today <> "".
Proof.
  unfold resolve_period, Datetime.strftime_B_Y.
  destruct (10 <=? Datetime.day today)%Z; apply month_label_nonempty.
Qed.

Lemma period_label_nonempty (today : Datetime.t) (month : option string) :
  period_label today month <> "".
Proof.
  unfold period_label.
  destruct (truthy month) eqn:Htruthy; cbn [negb].
  - destruct month as [v|]; [|discriminate].
    cbn in *. intros ->. discriminate.
  - apply resolve_period_nonempty.
Qed.

(** The month of a date has another name than the month before it. *)
Lemma month_label_differs_from_previous (y m : Z) :
  (1 <= m <= 12)%Z ->
  Datetime.month_label y m
  <> Datetime.month_label (fst (previous_month y m)) (snd (previous_month y m)).
Proof.
  intros Hm. rewrite previous_month_cases by assumption.
  assert (Hcases : (m = 1 \/ m = 2 \/ m = 3 \/ m = 4 \/ m = 5 \/ m = 6 \/ m = 7
                    \/ m = 8 \/ m = 9 \/ m = 10 \/ m = 11 \/ m = 12)%Z) by lia.
  unfold Datetime.month_label.
  repeat (destruct Hcases as [->|Hcases]); try subst m; cbn; discriminate.
Qed.

(** The label of the billing period and the label the handlers show
    ([datetime.now().strftime("%B %Y")], lines 318, 341, 362, 437) agree
    from the 10th on and differ up to the 9th: then the text names the
    running month while the sums are those of the month before. *)
Lemma shown_month_and_period (today : Datetime.t) :
  Datetime.valid today ->
  ((10 <= Datetime.day today)%Z ->
     Datetime.strftime_B_Y today = resolve_period today)
  /\ ((Datetime.day today < 10)%Z ->
        Datetime.strftime_B_Y today <> resolve_period today).
Proof.
  intros [Hmonth _]. unfold resolve_period. split; intros Hday.
  - apply Z.leb_le in Hday. now rewrite Hday.
  - apply Z.leb_gt in Hday. rewrite Hday.
    pose proof (month_label_differs_from_previous (Datetime.year today)
                  (Datetime.month today) Hmonth) as Hdiff.
    rewrite previous_month_cases in Hdiff by assumption.
    unfold Datetime.sub_one_day, Datetime.replace_day, Datetime.strftime_B_Y.
    cbn [Datetime.day Datetime.month Datetime.year].
    rewrite Z.ltb_irrefl.
    destruct (1 <? Datetime.month today)%Z; exact Hdiff.
Qed.

(** From the 10th of a month to the 9th of the next the label is the same. *)
Lemma next_month_same_period (y m d1 d2 : Z) :
  (1 <= m <= 12)%Z -> (10 <= d1)%Z -> (d2 < 10)%Z ->
  resolve_period (Datetime.mk y m d1)
  = resolve_period
      (if (m =? 12)%Z then Datetime.mk (y + 1) 1 d2 else Datetime.mk y (m + 1) d2).
Proof.
  intros Hm H1 H2. unfold resolve_period.
  apply Z.leb_le in H1. apply Z.leb_gt in H2.
  destruct (m =? 12)%Z eqn:Hdec; cbn [Datetime.day]; rewrite H1, H2.
  - apply Z.eqb_eq in Hdec. subst m.
    unfold Datetime.sub_one_day, Datetime.replace_day, Datetime.strftime_B_Y.
    cbn. now replace (y + 1 - 1)%Z with y by lia.
  - apply Z.eqb_neq in Hdec.
    unfold Datetime.sub_one_day, Datetime.replace_day, Datetime.strftime_B_Y.
    cbn [Datetime.day Datetime.month Datetime.year].
    rewrite Z.ltb_irrefl.
    assert (Hlt : (1 <? m + 1)%Z = true) by (apply Z.ltb_lt; lia).
    rewrite Hlt. cbn [Datetime.month Datetime.year].
    now replace (m + 1 - 1)%Z with m by lia.
Qed.

(** A billing period runs from the 10th of a month to the 9th of the next:
    every day from the 10th on of month [m] and every day before the 10th
    of the month after it have the same label, and the days before the
    10th of month [m] itself have another one. *)
Theorem billing_period_runs_from_10th_to_9th (y m d1 d2 : Z) :
  (1 <= m <= 12)%Z -> (10 <= d1)%Z -> (d2 < 10)%Z ->
  resolve_period (Datetime.mk y m d1)
  = resolve_period
      (if (m =? 12)%Z then Datetime.mk (y + 1) 1 d2 else Datetime.mk y (m + 1) d2)
  /\ resolve_period (Datetime.mk y m d2) <> resolve_period (Datetime.mk y m d1).
Proof.
  intros Hm H1 H2. split; [now apply next_month_same_period|].
  pose proof (month_label_differs_from_previous y m Hm) as Hdiff.
  rewrite previous_month_cases in Hdiff by assumption.
  unfold resolve_period.
  apply Z.leb_le in H1. apply Z.leb_gt in H2. cbn [Datetime.day].
  rewrite H1, H2.
  unfold Datetime.sub_one_day, Datetime.replace_day, Datetime.strftime_B_Y.
  cbn [Datetime.day Datetime.month Datetime.year].
  rewrite Z.ltb_irrefl.
  intros Heq. apply Hdiff. symmetry.
  destruct (1 <? m)%Z; exact Heq.
Qed.

Lemma billing_period_runs_from_10th_to_9th_witness :
  resolve_period (Datetime.mk 2023 12 10) = resolve_period (Datetime.mk 2024 1 9)
  /\ resolve_period (Datetime.mk 2023 12 9) <> resolve_period (Datetime.mk 2023 12 10).
Proof.
  apply (billing_period_runs_from_10th_to_9th 2023 12 10 9); lia.
Defined.

(** ** The summary, once more *)

Section Views.

Variable float_of_str : string -> option float.
Variable str_of_float : float -> string.

(** What [get_all_debts_summary] returns. *)
Lemma get_all_debts_summary_spec
    (self : DebtBot) (today : Datetime.t) (month : option string) :
  get_all_debts_summary float_of_str str_of_float self today month
  = Ok (sum_amounts
          (map (fun e => matching_total float_of_str self e (period_label today month))
             (filter
                (fun e => (0 <? matching_total float_of_str self e
                                  (period_label today month))%float)
                (employee_names self))),
        map (fun e => summary_line str_of_float e
                        (matching_total float_of_str self e
                           (period_label today month)))
          (filter
             (fun e => (0 <? matching_total float_of_str self e
                               (period_label today month))%float)
             (employee_names self))).
Proof.
  unfold get_all_debts_summary. rewrite get_all_employees_spec. cbn [bind].
  rewrite (for_each_ok _
    (fun (st : float * list string) employee =>
       if (0 <? matching_total float_of_str self employee
                  (period_label today month))%float
       then ((fst st + matching_total float_of_str self employee
                         (period_label today month))%float,
             snd st ++ [(fun e => summary_line str_of_float e
                                    (matching_total float_of_str self e
                                       (period_label today month))) employee])
       else st)).
  - now rewrite summary_fold.
  - intros [total summary] employee. unfold summary_row.
    rewrite calculate_monthly_debt_spec. cbn [bind fst snd].
    now destruct (0 <? matching_total float_of_str self employee
                         (period_label today month))%float.
Qed.

Lemma fold_left_append_lines (line : string -> string) (items : list string) :
  forall message,
    fold_left (fun message item => (message ++ line item)%string) items message
    = (message ++ concat_strings (map line items))%string.
Proof.
  induction items as [|item rest IH]; intros message; cbn.
  - clear. induction message; cbn; congruence.
  - now rewrite IH, string_append_assoc.
Qed.

(** The message of [show_all_debts] names the calendar month of today in
    its first line; its total and the lines under it are the grand total
    and the lines of the employees with a debt above zero in the billing
    period of today.  From the 10th on the month named is the month summed;
    up to the 9th it is not: the sums are those of the month before. *)
Theorem show_all_debts_names_running_month (self : DebtBot) (today : Datetime.t) :
  Datetime.valid today ->
  let total_of := fun employee =>
    matching_total float_of_str self employee (resolve_period today) in
  let included :=
    filter (fun employee => (0 <? total_of employee)%float) (employee_names self) in
  let summary :=
    map (fun employee => summary_line str_of_float employee (total_of employee))
      included in
  show_all_debts float_of_str str_of_float self today
  = Ok (("👥 Общие долги за " ++ Datetime.strftime_B_Y today ++ ":" ++ nl)
        ++ ("💵 Общая сумма: "
            ++ (match summary with
                | [] => "0"
                | _ => str_of_float (sum_amounts (map total_of included))
                end)
            ++ " ₽" ++ nl ++ nl)
        ++ (match summary with
            | [] => "📭 Долгов нет"
            | _ => "📋 По сотрудникам:" ++ nl
                   ++ concat_strings
                        (map (fun item => "• " ++ item ++ nl) summary)
            end))%string
  /\ ((Datetime.day today < 10)%Z ->
        Datetime.strftime_B_Y today <> resolve_period today)
  /\ ((10 <= Datetime.day today)%Z ->
        Datetime.strftime_B_Y today = resolve_period today).
Proof.
  intros Hvalid. cbv zeta. split.
  - unfold show_all_debts. rewrite get_all_debts_summary_spec. cbn [bind].
    change (period_label today None) with (resolve_period today).
    match goal with
    | |- context [map (fun e => summary_line _ e _) ?l] =>
        destruct (map (fun e => summary_line str_of_float e
                                  (matching_total float_of_str self e
                                     (resolve_period today))) l)
          as [|item items]
    end.
    + f_equal. rewrite !string_append_assoc. reflexivity.
    + f_equal.
      rewrite (fold_left_append_lines (fun item => ("• " ++ item ++ nl)%string)).
      rewrite !string_append_assoc. reflexivity.
  - pose proof (shown_month_and_period today Hvalid) as [Hsame Hdiff].
    split; assumption.
Qed.

End Views.

(** On 5 February the message is headed February and shows the debts of
    January. *)
Lemma show_all_debts_names_running_month_witness :
  show_all_debts ascii_float (fun _ => "#") january_bot (Datetime.mk 2024 2 5)
  = Ok (("👥 Общие долги за February 2024:" ++ nl)
        ++ ("💵 Общая сумма: #" ++ " ₽" ++ nl ++ nl)
        ++ "📋 По сотрудникам:" ++ nl
        ++ ("• Ann: # ₽" ++ nl) ++ ("• Bob: # ₽" ++ nl))%string
  /\ resolve_period (Datetime.mk 2024 2 5) = "January 2024"
  /\ Datetime.strftime_B_Y (Datetime.mk 2024 2 5)
     <> resolve_period (Datetime.mk 2024 2 5).
Proof.
  assert (Hvalid : Datetime.valid (Datetime.mk 2024 2 5))
    by (unfold Datetime.valid; cbn; lia).
  destruct (show_all_debts_names_running_month ascii_float (fun _ => "#")
              january_bot _ Hvalid) as (Htext & Hdiff & _).
  split; [|split].
  - rewrite Htext. reflexivity.
  - reflexivity.
  - apply Hdiff. cbn. lia.
Defined.

(** ** The notification round *)

(** A data row of the employees sheet with an id that [int] rejects. *)
Definition error_row (int_of_str : string -> option Z) (r : row) : bool :=
  (2 <=? List.length r)%nat
  && match int_of_str (nth 0 r "") with Some _ => false | None => true end.

(** A data row of the employees sheet that is notified: its id is an
    [int] and the employee named in it has a debt in the running period. *)
Definition notified_row (int_of_str : string -> option Z)
    (float_of_str : string -> option float) (self : DebtBot) (today : Datetime.t)
    (r : row) : bool :=
  (2 <=? List.length r)%nat
  && match int_of_str (nth 0 r "") with Some _ => true | None => false end
  && (0 <? matching_total float_of_str self (employee_field r)
             (resolve_period today))%float.

Section Notifications.

Variable int_of_str : string -> option Z.
Variable float_of_str : string -> option float.

Lemma notification_row_step (self : DebtBot) (today : Datetime.t)
    (st : Z * Z) (r : row) :
  notification_row int_of_str float_of_str self today st r
  = Ok (if notified_row int_of_str float_of_str self today r
        then ((fst st + 1)%Z, snd st)
        else if error_row int_of_str r then (fst st, (snd st + 1)%Z)
        else st).
Proof.
  destruct st as [notified errors].
  unfold notification_row, notified_row, error_row, employee_field.
  destruct (2 <=? List.length r)%nat eqn:Hlen; [|reflexivity].
  apply Nat.leb_le in Hlen.
  destruct r as [|id [|name r']]; cbn in Hlen; try lia.
  cbn [getitem nth_error nth bind andb fst snd]. unfold py_int.
  destruct (int_of_str id) as [n|]; cbn [bind try_except_ValueError_IndexError].
  - rewrite calculate_monthly_debt_spec. cbn [bind fst].
    change (period_label today None) with (resolve_period today).
    now destruct (0 <? matching_total float_of_str self name
                         (resolve_period today))%float.
  - reflexivity.
Qed.

Lemma notification_fold (self : DebtBot) (today : Datetime.t) (rows : list row) :
  forall notified errors,
    fold_left
      (fun (st : Z * Z) r =>
         if notified_row int_of_str float_of_str self today r
         then ((fst st + 1)%Z, snd st)
         else if error_row int_of_str r then (fst st, (snd st + 1)%Z)
         else st)
      rows (notified, errors)
    = ((notified
        + Z.of_nat (List.length
                      (filter (notified_row int_of_str float_of_str self today)
                         rows)))%Z,
       (errors + Z.of_nat (List.length (filter (error_row int_of_str) rows)))%Z).
Proof.
  induction rows as [|r rest IH]; intros notified errors.
  - cbn. f_equal; lia.
  - cbn [fold_left filter].
    assert (Hexcl : notified_row int_of_str float_of_str self today r = true ->
                    error_row int_of_str r = false).
    { unfold notified_row, error_row.
      destruct (2 <=? List.length r)%nat; [|reflexivity].
      destruct (int_of_str (nth 0 r "")); [reflexivity|discriminate]. }
    destruct (notified_row int_of_str float_of_str self today r) eqn:Hn.
    + rewrite (Hexcl eq_refl), IH. cbn [fst snd List.length]. f_equal; lia.
    + destruct (error_row int_of_str r); rewrite IH; cbn [fst snd List.length];
        f_equal; lia.
Qed.

(** [send_notifications] returns and does not raise.  It counts as
    notified the data rows with two cells, an id [int] accepts and a debt
    above zero in the running period, and as errors the data rows with two
    cells whose id [int] rejects; what it reports as skipped is the number of
    data rows left, so rows with fewer than two cells are among them.  On an
    empty employees sheet (no header either) it reports -1 skipped. *)
Theorem send_notifications_counts (self : DebtBot) (today : Datetime.t) :
  let employees_data := get_sheet_data self (SHEET_NAMES "employees") in
  let notified :=
    filter (notified_row int_of_str float_of_str self today) (tl employees_data) in
  let errors := filter (error_row int_of_str) (tl employees_data) in
  let others :=
    filter (fun r => negb (notified_row int_of_str float_of_str self today r)
                     && negb (error_row int_of_str r)) (tl employees_data) in
  exists skipped,
    send_notifications int_of_str float_of_str self today
    = Ok (Z.of_nat (List.length notified), Z.of_nat (List.length errors), skipped)
    /\ (employees_data = [] -> skipped = (-1)%Z)
    /\ (employees_data <> [] -> skipped = Z.of_nat (List.length others)).
Proof.
  cbv zeta. unfold send_notifications.
  rewrite (for_each_ok _ _ _ (notification_row_step self today)).
  rewrite notification_fold. cbn [bind].
  eexists. split; [reflexivity|]. split.
  - intros ->. reflexivity.
  - intros Hne.
    destruct (get_sheet_data self (SHEET_NAMES "employees")) as [|hdr rows];
      [contradiction|].
    cbn [tl List.length].
    assert (Hsplit : forall l : list row,
      (List.length
         (filter (notified_row int_of_str float_of_str self today) l)
       + List.length (filter (error_row int_of_str) l)
       + List.length
           (filter (fun r =>
                      negb (notified_row int_of_str float_of_str self today r)
                      && negb (error_row int_of_str r)) l)
       = List.length l)%nat).
    { induction l as [|r l IH]; [reflexivity|]. cbn [filter].
      assert (Hexcl : notified_row int_of_str float_of_str self today r = true ->
                      error_row int_of_str r = false).
      { unfold notified_row, error_row.
        destruct (2 <=? List.length r)%nat; [|reflexivity].
        destruct (int_of_str (nth 0 r "")); [reflexivity|discriminate]. }
      destruct (notified_row int_of_str float_of_str self today r) eqn:Hn.
      - rewrite (Hexcl eq_refl). cbn [negb andb List.length]. lia.
      - destruct (error_row int_of_str r); cbn [negb andb List.length]; lia. }
    specialize (Hsplit rows). lia.
Qed.

(** When [int] accepts the id of every employee row, the notification
    round reaches exactly the employees the summary lists: the number
    notified is the number of lines of [get_all_debts_summary]. *)
Theorem send_notifications_reaches_the_summary
    (str_of_float : float -> string) (self : DebtBot) (today : Datetime.t) :
  (forall r, In r (tl (get_sheet_data self (SHEET_NAMES "employees"))) ->
             error_row int_of_str r = false) ->
  exists notified skipped total summary,
    send_notifications int_of_str float_of_str self today
    = Ok (notified, 0%Z, skipped)
    /\ get_all_debts_summary float_of_str str_of_float self today None
       = Ok (total, summary)
    /\ notified = Z.of_nat (List.length summary).
Proof.
  intros Hids.
  unfold send_notifications.
  rewrite (for_each_ok _ _ _ (notification_row_step self today)).
  rewrite notification_fold. cbn [bind].
  rewrite get_all_debts_summary_spec.
  change (period_label today None) with (resolve_period today).
  unfold employee_names.
  eexists _, _, _, _. split; [|split; [reflexivity|]].
  - f_equal. f_equal. f_equal.
    induction (tl (get_sheet_data self (SHEET_NAMES "employees"))) as [|r l IH];
      [reflexivity|].
    cbn [filter]. rewrite (Hids r) by now left.
    apply IH. intros r' Hin. apply Hids. now right.
  - rewrite length_map. cbn [Z.add]. f_equal.
    induction (tl (get_sheet_data self (SHEET_NAMES "employees"))) as [|r l IH];
      [reflexivity|].
    cbn [filter map].
    assert (Hr := Hids r (or_introl eq_refl)).
    unfold notified_row. unfold error_row in Hr.
    replace (1 <? List.length r)%nat with (2 <=? List.length r)%nat
      by (destruct (2 <=? List.length r)%nat eqn:E;
          [apply Nat.leb_le in E; symmetry; apply Nat.ltb_lt; lia
          |apply Nat.leb_gt in E; symmetry; apply Nat.ltb_ge; lia]).
    destruct (2 <=? List.length r)%nat; cbn [andb map filter] in *.
    + destruct (int_of_str (nth 0 r "")); [|discriminate]. cbn [andb].
      destruct (0 <? matching_total float_of_str self (employee_field r)
                       (resolve_period today))%float; cbn [List.length];
        [f_equal|]; apply IH; intros r' Hin; apply Hids; now right.
    + apply IH. intros r' Hin. apply Hids. now right.
Qed.

End Notifications.

(** [int(s)] for a string of ASCII characters: surrounding white space
    stripped, an optional sign, decimal digits with optional underscores
    between them, at most 4300 digits (the default limit of the
    interpreter); [None] where it raises [ValueError]. *)
Definition ascii_int (s : string) : option Z :=
  let '(neg, body) := AsciiFloat.sign (AsciiFloat.strip (list_ascii_of_string s)) in
  match AsciiFloat.digitpart body with
  | Some (ds, []) =>
      if (List.length ds <=? 4300)%nat
      then Some (if neg then (- AsciiFloat.Z_of_digits ds)%Z
                 else AsciiFloat.Z_of_digits ds)
      else None
  | _ => None
  end.

Example ascii_int_samples :
  map ascii_int ["42"; " 7 "; "-3"; "+5"; "1_000"; "1.0"; ""; "id"; "4 2"]
  = [Some 42%Z; Some 7%Z; Some (-3)%Z; Some 5%Z; Some 1000%Z; None; None; None; None].
Proof. reflexivity. Qed.

(** The round on the January sheet: Ann and Bob have a debt, Cy has none;
    and on a spreadsheet that cannot be read, where one row too many is
    taken off the count. *)
Example send_notifications_samples :
  send_notifications ascii_int ascii_float january_bot mid_january
  = Ok (2%Z, 0%Z, 1%Z)
  /\ send_notifications ascii_int ascii_float
       (with_employees january_bot
          [employees_header; ["x1"; "Ann"]; ["2"]; ["3"; "Bob"]]) mid_january
     = Ok (1%Z, 1%Z, 1%Z)
  /\ send_notifications ascii_int ascii_float (bot_of [] []) mid_january
     = Ok (0%Z, 0%Z, (-1)%Z).
Proof. repeat split. Qed.

Lemma send_notifications_reaches_the_summary_witness :
  exists notified skipped total summary,
    send_notifications ascii_int ascii_float january_bot mid_january
    = Ok (notified, 0%Z, skipped)
    /\ get_all_debts_summary ascii_float (fun _ => "") january_bot mid_january None
       = Ok (total, summary)
    /\ notified = Z.of_nat (List.length summary).
Proof.
  apply (send_notifications_reaches_the_summary ascii_int ascii_float
           (fun _ => "") january_bot mid_january).
  intros r [<-|[<-|[<-|[]]]]; reflexivity.
Defined.

(** ** The monthly and the daily view of one sheet *)

Section TwoViews.

Variable float_of_str : string -> option float.

(** Every entry in the details of [calculate_monthly_debt] for an employee
    is also an entry of [get_daily_debts] for the entry's date and that
    employee, with the same items and amount.  (The other way round fails: a
    row of four columns is in the daily view and in no monthly one.) *)
Theorem monthly_details_are_in_the_daily_view
    (self : DebtBot) (today : Datetime.t) (employee_name : string)
    (month : option string) (total : float) (details : list detail) (d : detail) :
  calculate_monthly_debt float_of_str self today employee_name month
  = Ok (total, details) ->
  In d details ->
  exists daily_debts,
    get_daily_debts float_of_str self (detail_date d) (Some employee_name)
    = Ok daily_debts
    /\ In {| daily_employee := employee_name; daily_items := detail_items d;
             daily_amount := detail_amount d |} daily_debts.
Proof.
  rewrite calculate_monthly_debt_spec. intros [= _ <-] Hd.
  rewrite get_daily_debts_spec. eexists. split; [reflexivity|].
  unfold matching_details in Hd. apply in_flat_map in Hd.
  destruct Hd as (r & Hr & Hd).
  apply filter_In in Hr. destruct Hr as [Hin Hmatch].
  apply row_matches_iff in Hmatch. destruct Hmatch as (Hlen & Hemp & _).
  unfold detail_of in Hd.
  destruct (amount_of float_of_str r) as [a|] eqn:Ha; [|contradiction].
  destruct Hd as [<-|[]]. cbn [detail_date detail_items detail_amount].
  unfold daily_entries. apply in_flat_map. exists r. split.
  - apply filter_In. split; [exact Hin|].
    unfold daily_matches.
    assert (H4 : (4 <=? List.length r)%nat = true) by (apply Nat.leb_le; lia).
    rewrite H4, String.eqb_refl. cbn [andb value].
    rewrite Hemp, String.eqb_refl. apply orb_true_r.
  - unfold daily_of. rewrite Ha, Hemp. now left.
Qed.

(** A row whose period field is empty is never counted by
    [calculate_monthly_debt], whatever month is asked for: an empty or
    missing month argument stands for the current period, whose label is
    never empty. *)
Theorem empty_period_rows_are_never_counted
    (self : DebtBot) (hdr : row) (before after : list row) (r : row)
    (today : Datetime.t) (employee_name : string) (month : option string) :
  period_field r = "" ->
  calculate_monthly_debt float_of_str
    (with_debts self (hdr :: before ++ r :: after)) today employee_name month
  = calculate_monthly_debt float_of_str
      (with_debts self (hdr :: before ++ after)) today employee_name month.
Proof.
  intros Hempty. rewrite !calculate_monthly_debt_spec.
  unfold matching_total, matching_details.
  rewrite !debts_rows_with_debts. cbn [tl].
  rewrite !(flat_map_filter_drop (detail_of float_of_str) _ before after r);
    [reflexivity|].
  left. unfold row_matches. rewrite Hempty.
  assert (Hne : ("" =? period_label today month) = false).
  { apply String.eqb_neq. intros Heq.
    now apply (period_label_nonempty today month). }
  rewrite Hne. apply andb_false_r.
Qed.

End TwoViews.

Lemma monthly_details_are_in_the_daily_view_witness :
  exists daily_debts,
    get_daily_debts ascii_float january_bot "17.01.2024" (Some "Ann")
    = Ok daily_debts
    /\ In {| daily_employee := "Ann"; daily_items := "jam"; daily_amount := 20 |}
         daily_debts.
Proof.
  apply (monthly_details_are_in_the_daily_view ascii_float january_bot mid_january
           "Ann" None 30%float
           [ {| detail_date := "15.01.2024"; detail_items := "tea";
                detail_amount := 10 |};
             {| detail_date := "17.01.2024"; detail_items := "jam";
                detail_amount := 20 |} ]
           {| detail_date := "17.01.2024"; detail_items := "jam";
              detail_amount := 20 |}).
  - reflexivity.
  - right. now left.
Defined.

Lemma empty_period_rows_are_never_counted_witness :
  calculate_monthly_debt ascii_float
    (with_debts january_bot
       [debts_header; ["15.01.2024"; "Ann"; "tea"; "10"; ""]])
    mid_january "Ann" (Some "")
  = calculate_monthly_debt ascii_float (with_debts january_bot [debts_header])
      mid_january "Ann" (Some "").
Proof.
  apply (empty_period_rows_are_never_counted ascii_float january_bot
           debts_header [] [] ["15.01.2024"; "Ann"; "tea"; "10"; ""]).
  reflexivity.
Defined.

(** ** Repeated names in the employees sheet *)

Lemma employee_names_append (self : DebtBot) (r : row) :
  get_sheet_data self (SHEET_NAMES "employees") <> [] ->
  employee_names
    (with_employees self (get_sheet_data self (SHEET_NAMES "employees") ++ [r]))
  = employee_names self
    ++ (if (1 <? List.length r)%nat then [employee_field r] else []).
Proof.
  intros Hne. unfold employee_names.
  change (get_sheet_data (with_employees self ?d) (SHEET_NAMES "employees"))
    with d.
  destruct (get_sheet_data self (SHEET_NAMES "employees")) as [|hdr rows];
    [contradiction|].
  cbn [app tl]. rewrite filter_app, map_app. cbn [filter].
  now destruct (1 <? List.length r)%nat.
Qed.

Section RepeatedNames.

Variable float_of_str : string -> option float.
Variable str_of_float : float -> string.

(** The summary takes the employees sheet row by row and looks at no row
    twice: a further row naming an employee with a debt above zero adds
    the employee's line and total once more, also when the sheet named
    that employee before, so a name written twice is counted twice in the
    grand total. *)
Theorem get_all_debts_summary_counts_every_row
    (self : DebtBot) (today : Datetime.t) (month : option string) (r : row)
    (total : float) (summary : list string) :
  get_sheet_data self (SHEET_NAMES "employees") <> [] ->
  (2 <= List.length r)%nat ->
  get_all_debts_summary float_of_str str_of_float self today month
  = Ok (total, summary) ->
  let employee := employee_field r in
  let employee_total :=
    matching_total float_of_str self employee (period_label today month) in
  get_all_debts_summary float_of_str str_of_float
    (with_employees self (get_sheet_data self (SHEET_NAMES "employees") ++ [r]))
    today month
  = Ok (if (0 <? employee_total)%float
        then ((total + employee_total)%float,
              summary ++ [summary_line str_of_float employee employee_total])
        else (total, summary)).
Proof.
  intros Hne Hlen. rewrite !get_all_debts_summary_spec. intros [= <- <-].
  cbv zeta. rewrite employee_names_append by assumption.
  assert (H1 : (1 <? List.length r)%nat = true) by (apply Nat.ltb_lt; lia).
  rewrite H1.
  change (matching_total float_of_str (with_employees self ?d))
    with (matching_total float_of_str self).
  rewrite filter_app. cbn [filter].
  destruct (0 <? matching_total float_of_str self (employee_field r)
                   (period_label today month))%float.
  - rewrite !map_app. unfold sum_amounts. rewrite fold_left_app. reflexivity.
  - now rewrite app_nil_r.
Qed.

End RepeatedNames.

Lemma get_all_debts_summary_counts_every_row_witness :
  get_all_debts_summary ascii_float (fun _ => "")
    (with_employees abc_bot
       [employees_header; ["1"; "A"]; ["2"; "B"]; ["3"; "C"]; ["9"; "A"]])
    mid_january None
  = Ok (130%float, ["A:  ₽"; "C:  ₽"; "A:  ₽"]).
Proof.
  assert (Hne : get_sheet_data abc_bot (SHEET_NAMES "employees") <> [])
    by discriminate.
  assert (Hlen : (2 <= List.length ["9"; "A"])%nat) by (cbn; lia).
  exact (get_all_debts_summary_counts_every_row ascii_float (fun _ => "")
           abc_bot mid_january None ["9"; "A"] 80%float ["A:  ₽"; "C:  ₽"]
           Hne Hlen eq_refl).
Defined.

(** ** The employee's buttons *)

(** C7.  The itemised view with its running total is never shown:
    [employee_button_handler] reads the name [update], which is bound
    neither by its parameters nor in the module, so every call raises
    [NameError] at its first line, whatever the button, the sheets and the
    date; in particular for Ann with debts of 10, 5 and 20 no running
    totals 10, 15, 35 are produced. *)
Theorem employee_button_handler_raises_NameError
    (float_of_str : string -> option float) (str_of_float : float -> string)
    (self : DebtBot) (today : Datetime.t) (query_data : string) :
  employee_button_handler float_of_str str_of_float self today query_data
  = Raise NameError
  /\ employee_button_handler ascii_float str_of_float ann_bot
       (Datetime.mk 2024 1 15) "my_debt_details"
     = Raise NameError.
Proof. split; reflexivity. Qed.

(** Run where [update] is bound, as in [button_handler], the same body
    shows Ann the running totals 10, 15 and 35. *)
Example employee_button_handler_body_with_update
    (str_of_float : float -> string) :
  let entry := fun date items a =>
    {| detail_date := date; detail_items := items; detail_amount := a |} in
  employee_button_handler_body ascii_float str_of_float
    [("update", {| effective_user_id := 1 |})] ann_bot (Datetime.mk 2024 1 15)
    "my_debt_details"
  = Ok (Some
          (("📋 Детализация долга за January 2024:" ++ nl ++ nl)
           ++ detail_lines str_of_float (entry "15.01.2024" "tea" 10%float) 10
           ++ detail_lines str_of_float (entry "16.01.2024" "pie" 5%float) 15
           ++ detail_lines str_of_float (entry "17.01.2024" "jam" 20%float) 35
           ++ "✅ Итого: " ++ str_of_float 35%float ++ " ₽")%string, []).
Proof.
  cbv zeta.
  assert (Hcall :
    employee_button_handler_body ascii_float str_of_float
      [("update", {| effective_user_id := 1 |})] ann_bot (Datetime.mk 2024 1 15)
      "my_debt_details"
    = Ok (Some (details_message str_of_float "January 2024" 35%float
                  [ {| detail_date := "15.01.2024"; detail_items := "tea";
                       detail_amount := 10 |};
                    {| detail_date := "16.01.2024"; detail_items := "pie";
                       detail_amount := 5 |};
                    {| detail_date := "17.01.2024"; detail_items := "jam";
                       detail_amount := 20 |} ]), []))
    by reflexivity.
  rewrite Hcall. unfold details_message.
  cbn [fold_left running_total_row detail_amount].
  repeat rewrite string_append_assoc. reflexivity.
Qed.
